(** * Daxa safe loader: a shallow embedding and its properties

    The development follows the two Python modules of the repository:

    - [Pebblo]  : [langchain_community/utilities/pebblo.py]
                  (loader tables, [get_loader_type], [get_full_path],
                  the [Doc] and [App] schemas, [get_loader_full_path],
                  [get_runtime]);
    - [Os]      : the part of the file system that [os.path], [os.walk],
                  [os.stat] and [pwd] expose to the loader, with the
                  path resolution of the kernel;
    - [Daxa]    : [langchain_community/document_loaders/daxa.py]
                  (class [DaxaSafeLoader]).

    Python values are modelled by [pyval]; a Python [dict] is an
    insertion-ordered association list, as iteration over
    [LOADER_TYPE_MAPPING.items()] depends on that order.  Exceptions are
    values of [exn]; code that may raise returns a [result]. *)

From Stdlib Require Import List String Ascii ZArith Lia Bool Arith.
From Stdlib Require Import DecimalString.
Import ListNotations.
Set Warnings "-register-all".
Open Scope string_scope.

(* ================================================================= *)
(** ** Python values, dictionaries, exceptions *)

Module Py.

Inductive pyval : Type :=
| PNone
| PBool (b : bool)
| PInt (z : Z)
| PStr (s : string)
| PList (l : list pyval)
| PDict (d : list (string * pyval)).

Definition dict := list (string * pyval).

(** [d.get(k)] *)
Fixpoint dict_get {V : Type} (d : list (string * V)) (k : string) : option V :=
  match d with
  | [] => None
  | (k', v) :: d' => if String.eqb k k' then Some v else dict_get d' k
  end.

(** [d[k] = v]: an existing key keeps its position, a new key is appended. *)
Fixpoint dict_set {V : Type} (d : list (string * V)) (k : string) (v : V)
  : list (string * V) :=
  match d with
  | [] => [(k, v)]
  | (k', v') :: d' =>
      if String.eqb k k' then (k', v) :: d' else (k', v') :: dict_set d' k v
  end.

(** [k in d] *)
Definition dict_mem {V : Type} (d : list (string * V)) (k : string) : bool :=
  match dict_get d k with Some _ => true | None => false end.

(** [x in l] for a list of strings. *)
Definition str_in (x : string) (l : list string) : bool :=
  existsb (String.eqb x) l.

(** [sub in s] for strings. *)
Fixpoint contains (sub s : string) : bool :=
  prefix sub s ||
  match s with
  | EmptyString => false
  | String _ t => contains sub t
  end.

(** [s.split(sep)] for a one-character separator. *)
Fixpoint split_on (sep : ascii) (s : string) : list string :=
  match s with
  | EmptyString => [EmptyString]
  | String c t =>
      if Ascii.eqb c sep then EmptyString :: split_on sep t
      else match split_on sep t with
           | [] => [String c EmptyString]
           | h :: r => String c h :: r
           end
  end.

(** [sep.join(l)] *)
Fixpoint join (sep : string) (l : list string) : string :=
  match l with
  | [] => EmptyString
  | [x] => x
  | x :: r => x ++ sep ++ join sep r
  end.

(** [path[0] == "/"] on a non-empty string. *)
Definition starts_with_slash (path : string) : bool :=
  match path with
  | String c _ => Ascii.eqb c "/"
  | EmptyString => false
  end.

(** Lexical clean-up of path components: empty and [.] components are
    dropped and [..] removes the component before it. *)
Fixpoint normalise (acc : list string) (cs : list string) : list string :=
  match cs with
  | [] => acc
  | c :: cs' =>
      if String.eqb c EmptyString || String.eqb c "." then normalise acc cs'
      else if String.eqb c ".." then normalise (removelast acc) cs'
      else normalise (acc ++ [c])%list cs'
  end.

(** [str(z)] for an integer. *)
Definition int_str (z : Z) : string := NilEmpty.string_of_int (Z.to_int z).

(** ASCII [str.lower()]. *)
Definition lower_ascii (c : ascii) : ascii :=
  let n := nat_of_ascii c in
  if Nat.leb 65 n && Nat.leb n 90 then ascii_of_nat (n + 32) else c.

Fixpoint lower (s : string) : string :=
  match s with
  | EmptyString => EmptyString
  | String c t => String (lower_ascii c) (lower t)
  end.

(** [repr(v)] and [str(v)], as an f-string formats a value; quotes
    inside strings are not escaped. *)
Fixpoint py_repr (v : pyval) : string :=
  match v with
  | PNone => "None"
  | PBool true => "True"
  | PBool false => "False"
  | PInt z => int_str z
  | PStr s => "'" ++ s ++ "'"
  | PList l => "[" ++ join ", " (map py_repr l) ++ "]"
  | PDict d =>
      "{" ++ join ", "
               (map (fun kv => "'" ++ fst kv ++ "': " ++ py_repr (snd kv)) d)
      ++ "}"
  end.

Definition py_str (v : pyval) : string :=
  match v with
  | PStr s => s
  | _ => py_repr v
  end.

(** Truth value of a Python object, as [not x] and [if x] use it. *)
Definition truthy (v : pyval) : bool :=
  match v with
  | PNone => false
  | PBool b => b
  | PInt z => negb (Z.eqb z 0)
  | PStr s => negb (String.eqb s EmptyString)
  | PList l => match l with [] => false | _ => true end
  | PDict d => match d with [] => false | _ => true end
  end.

(** [isinstance(v, str)] *)
Definition is_str (v : pyval) : bool :=
  match v with PStr _ => true | _ => false end.

(** The exception classes the two modules raise or handle.  Every one
    is a subclass of [Exception]; [UnboundLocalError] is a subclass of
    [NameError], and the [JSONDecodeError] of [requests] a subclass of
    its [RequestException]. *)
Inductive exn_class : Type :=
| NameError
| UnboundLocalError
| TypeError
| KeyError
| IndexError
| AttributeError
| OSError
| ValidationError
| NotImplementedError
| RequestException
| JSONDecodeError
| RuntimeError.

(** An exception object: class, message and the [__cause__] that
    [raise ... from exc] attaches. *)
Inductive exn : Type :=
| Exn (cls : exn_class) (msg : string) (cause : option exn).

Definition exn_cls (e : exn) : exn_class := let 'Exn c _ _ := e in c.
Definition exn_msg (e : exn) : string := let 'Exn _ m _ := e in m.
Definition exn_cause (e : exn) : option exn := let 'Exn _ _ c := e in c.

Definition exn_class_eqb (a b : exn_class) : bool :=
  match a, b with
  | NameError, NameError | UnboundLocalError, UnboundLocalError
  | TypeError, TypeError | KeyError, KeyError | IndexError, IndexError
  | AttributeError, AttributeError | OSError, OSError
  | ValidationError, ValidationError
  | NotImplementedError, NotImplementedError
  | RequestException, RequestException
  | JSONDecodeError, JSONDecodeError | RuntimeError, RuntimeError => true
  | _, _ => false
  end.

(** [issubclass(a, b)] on the classes above. *)
Definition subclass (a b : exn_class) : bool :=
  exn_class_eqb a b ||
  match a, b with
  | UnboundLocalError, NameError => true
  | JSONDecodeError, RequestException => true
  | _, _ => false
  end.

(** The outcome of running code that may raise. *)
Inductive result (A : Type) : Type :=
| Ok (a : A)
| Raise (e : exn).
Arguments Ok {A} a.
Arguments Raise {A} e.

Definition rbind {A B : Type} (r : result A) (k : A -> result B) : result B :=
  match r with
  | Ok a => k a
  | Raise e => Raise e
  end.

End Py.
Import Py.

Notation "'let?' x ':=' r 'in' k" := (rbind r (fun x => k))
  (at level 10, x pattern, r at level 100, k at level 200).

(* ================================================================= *)
(** ** The file system seen through [os], [os.path] and [pwd] *)

Module Os.

(** The two fields of [os.stat_result] that the loader reads. *)
Record stat_result : Type := { st_uid : nat; st_size : nat }.

(** A file tree.  A symbolic link holds its target as the string that
    [readlink] returns.  Devices, sockets and pipes are left out. *)
Inductive node : Type :=
| File (st : stat_result)
| Dir (st : stat_result) (entries : list (string * node))
| Symlink (target : string).

(** The place of a file in the tree: the names of the directories from
    the root down to it, none of them a link. *)
Definition path := list string.

(** The node at a place. *)
Fixpoint get_node (n : node) (p : path) : option node :=
  match p with
  | [] => Some n
  | c :: p' =>
      match n with
      | Dir _ es =>
          match dict_get es c with
          | Some m => get_node m p'
          | None => None
          end
      | _ => None
      end
  end.

(** *** Path resolution

    The kernel resolves a path string component by component, in the
    tree as it is: an empty component and [.] stay in the current
    directory, [..] goes to the parent of the current directory (the
    directory that a link led to, when one was followed), a name is
    looked up in the current directory.  A link met on the way is
    replaced by its target; at most [MAXSYMLINKS] links are followed in
    one resolution (40 on Linux).  A component after a regular file is
    an error, a trailing slash included.  Permissions and the limits on
    the length of names are left out: every directory can be searched. *)

Definition MAXSYMLINKS : nat := 40.

Definition is_nil {A : Type} (l : list A) : bool :=
  match l with [] => true | _ => false end.

(** One component, from the directory at [cur]. *)
Inductive lookup_result : Type :=
| Stay (cur : path)
| Found (p : path) (n : node)
| Missing.

Definition lookup_component (fs : node) (cur : path) (c : string)
  : lookup_result :=
  if String.eqb c EmptyString || String.eqb c "." then Stay cur
  else if String.eqb c ".." then Stay (removelast cur)
  else
    match get_node fs cur with
    | Some (Dir _ es) =>
        match dict_get es c with
        | Some (Dir _ _) => Stay (cur ++ [c])%list
        | Some n => Found (cur ++ [c])%list n
        | None => Missing
        end
    | _ => Missing
    end.

(** The place and the node that the components [comps] lead to from
    the directory at [cur]; [None] stands for the [OSError] of a failed
    resolution.  With [follow_last] unset a link in the last position
    is the result, as for [lstat]. *)
Fixpoint namei (fs : node) (links : nat) (follow_last : bool)
  {struct links} : path -> list string -> option (path * node) :=
  fix walk_components (cur : path) (comps : list string) {struct comps}
    : option (path * node) :=
    match comps with
    | [] =>
        match get_node fs cur with
        | Some d => Some (cur, d)
        | None => None
        end
    | c :: rest =>
        match lookup_component fs cur c with
        | Stay cur' => walk_components cur' rest
        | Missing => None
        | Found p (File st) =>
            if is_nil rest then Some (p, File st) else None
        | Found p (Symlink target) =>
            if is_nil rest && negb follow_last then Some (p, Symlink target)
            else
              match links with
              | O => None
              | S links' =>
                  if String.eqb target EmptyString then None
                  else
                    namei fs links' follow_last
                          (if starts_with_slash target then [] else cur)
                          (split_on "/" target ++ rest)%list
              end
        | Found _ (Dir _ _) => None
        end
    end.

(** The host: file tree, working directory (the place of a directory)
    and user database. *)
Record host : Type := {
  root : node;
  cwd : path;
  passwd : list (nat * string)
}.

(** Where the resolution of a path string starts. *)
Definition start_dir (h : host) (s : string) : path :=
  if starts_with_slash s then [] else cwd h.

(** [os.stat(s)] and [os.lstat(s)] as the place and the node found;
    the empty string names no file. *)
Definition os_stat (h : host) (s : string) : option (path * node) :=
  if String.eqb s EmptyString then None
  else namei (root h) MAXSYMLINKS true (start_dir h s) (split_on "/" s).

Definition os_lstat (h : host) (s : string) : option (path * node) :=
  if String.eqb s EmptyString then None
  else namei (root h) MAXSYMLINKS false (start_dir h s) (split_on "/" s).

Definition isfile (h : host) (s : string) : bool :=
  match os_stat h s with Some (_, File _) => true | _ => false end.

Definition isdir (h : host) (s : string) : bool :=
  match os_stat h s with Some (_, Dir _ _) => true | _ => false end.

(** [os.path.islink(s)] *)
Definition islink (h : host) (s : string) : bool :=
  match os_lstat h s with Some (_, Symlink _) => true | _ => false end.

Definition os_error : exn :=
  Exn OSError "No such file or directory" None.

(** [os.path.getsize(s)], that is [os.stat(s).st_size]. *)
Definition getsize (h : host) (s : string) : result nat :=
  match os_stat h s with
  | Some (_, File st) => Ok (st_size st)
  | Some (_, Dir st _) => Ok (st_size st)
  | _ => Raise os_error
  end.

(** [os.stat(s).st_uid] *)
Definition stat_uid (h : host) (s : string) : result nat :=
  match os_stat h s with
  | Some (_, File st) => Ok (st_uid st)
  | Some (_, Dir st _) => Ok (st_uid st)
  | _ => Raise os_error
  end.

Fixpoint ends_with_slash (s : string) : bool :=
  match s with
  | EmptyString => false
  | String c EmptyString => Ascii.eqb c "/"
  | String _ t => ends_with_slash t
  end.

(** [os.path.join(a, b)] *)
Definition path_join (a b : string) : string :=
  if starts_with_slash b then b
  else if String.eqb a EmptyString || ends_with_slash a then a ++ b
  else a ++ "/" ++ b.

(** The functions of [os.path] on the argument of the loader; [None]
    in place of a path is a [TypeError]. *)
Definition path_arg (p : option string) : result string :=
  match p with
  | None =>
      Raise (Exn TypeError
               "stat: path should be string, bytes, os.PathLike or integer, not NoneType"
               None)
  | Some s => Ok s
  end.

Definition os_path_isfile (h : host) (p : option string) : result bool :=
  let? s := path_arg p in Ok (isfile h s).

Definition os_path_isdir (h : host) (p : option string) : result bool :=
  let? s := path_arg p in Ok (isdir h s).

Definition os_path_getsize (h : host) (p : option string) : result nat :=
  let? s := path_arg p in getsize h s.

Definition os_stat_uid (h : host) (p : option string) : result nat :=
  let? s := path_arg p in stat_uid h s.

(** *** [os.walk] *)

(** [DirEntry.is_dir()] of the entry [name] of the directory at [dir]:
    true for a directory and for a link that resolves to one. *)
Definition entry_is_dir (fs : node) (dir : path) (name : string) (n : node)
  : bool :=
  match n with
  | Dir _ _ => true
  | File _ => false
  | Symlink _ =>
      match namei fs MAXSYMLINKS true dir [name] with
      | Some (_, Dir _ _) => true
      | _ => false
      end
  end.

Definition is_symlink (n : node) : bool :=
  match n with Symlink _ => true | _ => false end.

Definition dirnames (fs : node) (dir : path) (es : list (string * node))
  : list string :=
  map fst (filter (fun e => entry_is_dir fs dir (fst e) (snd e)) es).

Definition filenames (fs : node) (dir : path) (es : list (string * node))
  : list string :=
  map fst (filter (fun e => negb (entry_is_dir fs dir (fst e) (snd e))) es).

(** [os.walk(top)] with its defaults (top-down, [followlinks=False])
    below the directory that [top] names: one triple for the directory,
    then the walk of each sub-directory that is not a symbolic link,
    under the name [os.path.join(top, name)]. *)
Fixpoint walk_node (fs : node) (top : string) (dir : path) (n : node)
  : list (string * list string * list string) :=
  match n with
  | Dir _ es =>
      (top, dirnames fs dir es, filenames fs dir es) ::
      flat_map
        (fun e =>
           if entry_is_dir fs dir (fst e) (snd e)
              && negb (is_symlink (snd e))
           then walk_node fs (path_join top (fst e))
                          (dir ++ [fst e])%list (snd e)
           else [])
        es
  | _ => []
  end.

(** [os.walk(top)]: [top] itself is opened through links; a [top] that
    cannot be listed yields nothing. *)
Definition walk (h : host) (top : string)
  : list (string * list string * list string) :=
  match os_stat h top with
  | Some (dir, Dir st es) => walk_node (root h) top dir (Dir st es)
  | _ => []
  end.

Definition os_walk (h : host) (p : option string)
  : result (list (string * list string * list string)) :=
  let? s := path_arg p in Ok (walk h s).

(** [pwd.getpwuid(uid).pw_name] *)
Fixpoint getpwuid (db : list (nat * string)) (uid : nat) : result string :=
  match db with
  | [] => Raise (Exn KeyError "getpwuid(): uid not found" None)
  | (u, name) :: db' => if Nat.eqb u uid then Ok name else getpwuid db' uid
  end.

(** *** Well-formed trees

    The names of a directory are pairwise distinct, none is empty, [.]
    or [..], and none holds a slash; so at every level. *)
Fixpoint unique_names (l : list string) : bool :=
  match l with
  | [] => true
  | x :: r => negb (str_in x r) && unique_names r
  end.

Definition has_slash (k : string) : bool :=
  existsb (Ascii.eqb "/") (list_ascii_of_string k).

Definition valid_name (k : string) : bool :=
  negb (String.eqb k EmptyString) && negb (String.eqb k ".")
  && negb (String.eqb k "..") && negb (has_slash k).

Fixpoint wf_node (n : node) : bool :=
  match n with
  | File _ => true
  | Dir _ es =>
      forallb valid_name (map fst es)
      && unique_names (map fst es)
      && forallb (fun e => wf_node (snd e)) es
  | Symlink _ => true
  end.

(** The size of a source, as the sum that the loader is after: the
    sizes of the regular files below a node, symbolic links left out. *)
Fixpoint tree_size (n : node) : nat :=
  match n with
  | File st => st_size st
  | Dir _ es => list_sum (map (fun e => tree_size (snd e)) es)
  | Symlink _ => 0
  end.

(** The two parts of that sum at one entry of a directory: the entry
    as a regular file, and the entry as a sub-directory. *)
Definition own_file_size (n : node) : nat :=
  match n with File st => st_size st | _ => 0 end.

Definition subdir_size (n : node) : nat :=
  match n with Dir _ _ => tree_size n | _ => 0 end.

End Os.
Import Os.

(* ================================================================= *)
(** ** Effects: log records, HTTP requests, the process environment *)

Module World.

Inductive log_level : Type := DEBUG | WARNING | ERROR.

(** What a run leaves behind: the requests handed to [requests.post]
    and the records handed to the module loggers. *)
Inductive event : Type :=
| HttpPost (url : string) (body : dict)
| Log (level : log_level) (msg : string).

(** A [requests.Response]: its status and what [resp.json()] gives. *)
Record Response : Type := { status_code : Z; json : result pyval }.

(** Everything the code reads from outside itself.  [requests_post n]
    is the answer of the network to the request number [n] of the run:
    a response, or the exception [requests.post] raises.
    [unbound_local_message x] is the message of the [UnboundLocalError]
    for the local variable [x]; its wording depends on the version of
    the interpreter. *)
Record environment : Type := {
  host : Os.host;
  Path_resolve : string -> string;
  PEBBLO_CLASSIFIER_URL : option string;
  environ_PWD : option string;
  runtime_environment : list (string * string);
  uname_node : string;
  uname_system : string;
  uname_version : string;
  gethostname : string;
  gethostbyname : string -> result string;
  getcwd : string;
  requests_post : nat -> string -> dict -> result Response;
  uuid4 : nat -> string;
  unbound_local_message : string -> string
}.

(** The mutable state: the two class-level flags of [DaxaSafeLoader],
    the number of identifiers drawn from [uuid.uuid4], and the events
    so far, oldest first. *)
Record world : Type := {
  discover_sent : bool;
  loader_sent : bool;
  uuids_drawn : nat;
  events : list event
}.

Definition initial_world : world :=
  {| discover_sent := false; loader_sent := false;
     uuids_drawn := 0; events := [] |}.

(** Computations that read and change the world and may raise. *)
Definition M (A : Type) : Type := world -> result A * world.

Definition ret {A : Type} (a : A) : M A := fun w => (Ok a, w).

Definition raise {A : Type} (e : exn) : M A := fun w => (Raise e, w).

Definition bind {A B : Type} (m : M A) (k : A -> M B) : M B :=
  fun w =>
    match m w with
    | (Ok a, w') => k a w'
    | (Raise e, w') => (Raise e, w')
    end.

(** A pure computation that may raise, run inside [M]. *)
Definition lift {A : Type} (r : result A) : M A := fun w => (r, w).

(** [try: m  except Exception as e: h e] *)
Definition try_except {A : Type} (m : M A) (h : exn -> M A) : M A :=
  fun w =>
    match m w with
    | (Ok a, w') => (Ok a, w')
    | (Raise e, w') => h e w'
    end.

Definition emit (ev : event) : M unit :=
  fun w =>
    (Ok tt, {| discover_sent := discover_sent w;
               loader_sent := loader_sent w;
               uuids_drawn := uuids_drawn w;
               events := (events w ++ [ev])%list |}).

Definition log (level : log_level) (msg : string) : M unit :=
  emit (Log level msg).

Definition is_post (ev : event) : bool :=
  match ev with HttpPost _ _ => true | Log _ _ => false end.

(** The requests of a trace, as (url, body) pairs. *)
Fixpoint posts (evs : list event) : list (string * dict) :=
  match evs with
  | [] => []
  | HttpPost url body :: r => (url, body) :: posts r
  | Log _ _ :: r => posts r
  end.

(** [requests.post(url, headers=headers, json=body, timeout=20)]:
    the request is recorded, then the network answers or raises. *)
Definition post (env : environment) (url : string) (body : dict)
  : M Response :=
  fun w =>
    let n := List.length (posts (events w)) in
    match emit (HttpPost url body) w with
    | (_, w') => (requests_post env n url body, w')
    end.

(** [str(uuid.uuid4())] *)
Definition fresh_uuid (env : environment) : M string :=
  fun w =>
    (Ok (uuid4 env (uuids_drawn w)),
     {| discover_sent := discover_sent w;
        loader_sent := loader_sent w;
        uuids_drawn := S (uuids_drawn w);
        events := events w |}).

Definition HTTP_OK : Z := 200.
Definition HTTP_BAD_GATEWAY : Z := 502.

End World.
Import World.

Notation "x <- m ;; k" := (bind m (fun x => k))
  (at level 61, m at next level, right associativity).
Notation "m ;; k" := (bind m (fun _ => k))
  (at level 61, right associativity).

(* ================================================================= *)
(** ** Documents and loaders of the framework *)

Module Langchain.

(** A [Document]: text and a metadata mapping whose values are strings
    or [None]. *)
Record Document : Type := {
  page_content : string;
  metadata : list (string * option string)
}.

Definition opt_val (o : option string) : pyval :=
  match o with Some s => PStr s | None => PNone end.

(** [doc.dict()] *)
Definition Document_dict (d : Document) : dict :=
  [ ("page_content", PStr (page_content d));
    ("metadata", PDict (map (fun kv => (fst kv, opt_val (snd kv)))
                            (metadata d)));
    ("type", PStr "Document") ].

(** The classes of the library that the two modules import and test
    instances against. *)
Inductive library_class : Type :=
| BaseLoader
| DataFrameLoader
| GCSFileLoader
| S3FileLoader
| NotionDBLoader.

Definition library_class_eqb (a b : library_class) : bool :=
  match a, b with
  | BaseLoader, BaseLoader | DataFrameLoader, DataFrameLoader
  | GCSFileLoader, GCSFileLoader | S3FileLoader, S3FileLoader
  | NotionDBLoader, NotionDBLoader => true
  | _, _ => false
  end.

(** The object handed to the wrapper, as far as the wrapper looks at
    it: the module, the qualified name and the name of its class, the
    classes of the library that [isinstance] holds for, its instance
    attributes, and what its [load()] and [lazy_load()] do.  A loader
    that does not support lazy loading raises [NotImplementedError]
    from [lazy_load()]; otherwise the call returns an iterator, given
    here by the documents it yields. *)
Record Loader : Type := {
  loader_module : string;
  loader_qualname : string;
  loader_class : string;
  loader_instance_of : list library_class;
  loader_attrs : dict;
  loader_load : result (list Document);
  loader_lazy_load : result (list Document)
}.

(** [str(type(loader))], for a class whose metaclass keeps the [repr]
    of [type]: the module is left out for a class of [builtins]. *)
Definition type_str (l : Loader) : string :=
  if String.eqb (loader_module l) "builtins"
  then "<class '" ++ loader_qualname l ++ "'>"
  else "<class '" ++ loader_module l ++ "." ++ loader_qualname l ++ "'>".

(** [isinstance(loader, cls)] for a class object of the library. *)
Definition isinstance (l : Loader) (cls : library_class) : bool :=
  existsb (library_class_eqb cls) (loader_instance_of l).

(** [loader.name] for an instance attribute. *)
Definition getattr (l : Loader) (name : string) : result pyval :=
  match dict_get (loader_attrs l) name with
  | Some v => Ok v
  | None =>
      Raise (Exn AttributeError
               ("'" ++ loader_class l ++ "' object has no attribute '"
                ++ name ++ "'") None)
  end.

(** The message of [BaseLoader.lazy_load] in a loader without lazy
    loading. *)
Definition base_lazy_load_error (l : Loader) : exn :=
  Exn NotImplementedError
      (loader_class l ++ " does not implement lazy_load()") None.

End Langchain.
Import Langchain.

(* ================================================================= *)
(** ** utilities/pebblo.py: tables and pure helpers *)

Module Pebblo.

Definition PLUGIN_VERSION : string := "0.1.0".
Definition IP_INFO_URL : string := "https://ipinfo.io/ip".

Definition file_loader : list string :=
  [ "JSONLoader"; "S3FileLoader"; "UnstructuredMarkdownLoader";
    "UnstructuredPDFLoader"; "UnstructuredFileLoader";
    "UnstructuredJsonLoader"; "PyPDFLoader"; "GCSFileLoader";
    "AmazonTextractPDFLoader"; "CSVLoader"; "UnstructuredExcelLoader";
    "UnstructuredEmailLoader" ].

Definition dir_loader : list string :=
  [ "DirectoryLoader"; "S3DirLoader"; "SlackDirectoryLoader";
    "PyPDFDirectoryLoader"; "NotionDirectoryLoader" ].

Definition in_memory : list string := [ "DataFrameLoader" ].

Definition remote_db : list string := [ "NotionDBLoader"; "GoogleDriveLoader" ].

Definition LOADER_TYPE_MAPPING : list (string * list string) :=
  [ ("file", file_loader); ("dir", dir_loader);
    ("in-memory", in_memory); ("remote_db", remote_db) ].

Definition SUPPORTED_LOADERS : list string :=
  (file_loader ++ dir_loader ++ in_memory ++ remote_db)%list.

(** The [for ... in mapping.items()] loop of [get_loader_type]. *)
Fixpoint get_loader_type_in (mapping : list (string * list string))
  (loader : string) : string :=
  match mapping with
  | [] => "unknown"
  | (loader_type, loaders) :: rest =>
      if str_in loader loaders then loader_type
      else get_loader_type_in rest loader
  end.

Definition get_loader_type (loader : string) : string :=
  get_loader_type_in LOADER_TYPE_MAPPING loader.

Definition path_sentinels : list string := [ "unknown"; "-"; "in-memory" ].

(** The guard of [get_full_path] on a string argument. *)
Definition passes_through (path : string) : bool :=
  String.eqb path EmptyString
  || contains "://" path
  || starts_with_slash path
  || str_in path path_sentinels.

Section FullPath.

(** [str(pathlib.Path(p).resolve())]: it depends on the working
    directory and on the symbolic links of the host. *)
Variable Path_resolve : string -> string.

(** The body of [get_full_path] on a string. *)
Definition get_full_path_str (path : string) : string :=
  if passes_through path then path else Path_resolve path.

(** [get_full_path].  The argument is a string or [None]: the source
    of a document may be absent, and [not None] holds. *)
Definition get_full_path (path : option string) : option string :=
  match path with
  | None => None
  | Some p => Some (get_full_path_str p)
  end.

End FullPath.

(** A lexical model of [Path.resolve] in a tree without symbolic links:
    the path is appended to the working directory and cleaned up. *)
Definition lexical_resolve (cwd p : string) : string :=
  "/" ++ join "/" (normalise [] (split_on "/" cwd ++ split_on "/" p)%list).

(** [CLASSIFIER_URL = os.getenv("PEBBLO_CLASSIFIER_URL", ...)] *)
Definition CLASSIFIER_URL (env : environment) : string :=
  match PEBBLO_CLASSIFIER_URL env with
  | Some u => u
  | None => "http://localhost:8000/v1"
  end.

(** *** The pydantic models

    [BaseModel] comes from [langchain_core.pydantic_v1], the model
    class of pydantic 1.  A model class is kept as the list of its
    declared fields, all of them required in [Doc].  The class has
    [parse_obj], [dict] and [json], and neither [model_validate] nor
    [model_dump]: looking one of these two up, on a model class or on a
    model, raises [AttributeError]. *)

Inductive field_type : Type := TStr | TBool | TList | TDict.

Definition Doc_fields : list (string * field_type) :=
  [ ("name", TStr); ("owner", TStr); ("docs", TList);
    ("plugin_version", TStr); ("load_id", TStr);
    ("loader_details", TDict); ("loading_end", TBool);
    ("source_owner", TStr) ].

(** [cls.model_validate(obj)] for a model class named [cls]. *)
Definition model_validate (cls : string) (obj : dict) : result dict :=
  Raise (Exn AttributeError
           ("type object '" ++ cls ++ "' has no attribute 'model_validate'")
           None).

(** [model.model_dump(exclude_unset=True)] for a model of class [cls]. *)
Definition model_dump (cls : string) (model : dict) : result dict :=
  Raise (Exn AttributeError
           ("'" ++ cls ++ "' object has no attribute 'model_dump'") None).

Definition Doc_model_validate : dict -> result dict := model_validate "Doc".

(** *** [get_loader_full_path] *)

(** [v[0]] *)
Definition index0 (v : pyval) : result pyval :=
  match v with
  | PList (x :: _) => Ok x
  | PList [] => Raise (Exn IndexError "list index out of range" None)
  | PStr (String c _) => Ok (PStr (String c EmptyString))
  | PStr EmptyString =>
      Raise (Exn IndexError "string index out of range" None)
  | _ => Raise (Exn TypeError "object is not subscriptable" None)
  end.

(** The chain of [if]/[elif] that picks the location. *)
Definition loader_location (loader : Loader) : result pyval :=
  let location := PStr "-" in
  let loader_keys := loader_attrs loader in
  if dict_mem loader_keys "bucket" then
    if isinstance loader GCSFileLoader then
      let? bucket := getattr loader "bucket" in
      let? blob := getattr loader "blob" in
      Ok (PStr ("gc://" ++ py_str bucket ++ "/" ++ py_str blob))
    else if isinstance loader S3FileLoader then
      let? bucket := getattr loader "bucket" in
      let? key := getattr loader "key" in
      Ok (PStr ("s3://" ++ py_str bucket ++ "/" ++ py_str key))
    else Ok location
  else if dict_mem loader_keys "source" then
    let? source := getattr loader "source" in
    let location := py_str source in
    if dict_mem loader_keys "channel" then
      let? channel := getattr loader "channel" in
      Ok (PStr (location ++ "/" ++ py_str channel))
    else Ok (PStr location)
  else if dict_mem loader_keys "path" then getattr loader "path"
  else if dict_mem loader_keys "file_path" then getattr loader "file_path"
  else if dict_mem loader_keys "web_paths" then
    let? web_paths := getattr loader "web_paths" in index0 web_paths
  else if isinstance loader DataFrameLoader then Ok (PStr "in-memory")
  else if isinstance loader NotionDBLoader then
    let? database_id := getattr loader "database_id" in
    Ok (PStr ("notiondb://" ++ py_str database_id))
  else Ok location.

Definition get_loader_full_path (env : environment) (loader : Loader)
  : M string :=
  let location := "-" in
  if negb (isinstance loader BaseLoader) then
    log ERROR
      "loader is not derived from BaseLoader, source location will be unknown!" ;;
    ret location
  else
    location <- lift (loader_location loader) ;;
    ret (get_full_path_str (Path_resolve env) (py_str location)).

(** *** [get_runtime] *)

Definition get_local_runtime (env : environment) (service : string)
  : result dict :=
  let host := gethostname env in
  let? public_ip :=
    match gethostbyname env host with
    | Ok ip => Ok ip
    | Raise _ => gethostbyname env "localhost"
    end in
  let path := getcwd env in
  let name := host in
  Ok [ ("type", PStr "local"); ("host", PStr host); ("path", PStr path);
       ("ip", PStr public_ip); ("name", PStr name);
       ("runtime", PStr service) ].

(** [d.get(k, default)] *)
Definition get_default {V : Type} (d : list (string * V)) (k : string)
  (default : V) : V :=
  match dict_get d k with Some v => v | None => default end.

(** [Framework(name=..., version=...)]: [version] is a required
    string, and [None] is refused. *)
Definition Framework (name : string) (version : option string)
  : result dict :=
  match version with
  | Some v => Ok [ ("name", PStr name); ("version", PStr v) ]
  | None =>
      Raise (Exn ValidationError "version: none is not an allowed value" None)
  end.

(** [Runtime(host=..., path=..., ...)] with the fields the call sets. *)
Definition Runtime (host path platform os os_version language
                    language_version : string) : dict :=
  [ ("host", PStr host); ("path", PStr path); ("platform", PStr platform);
    ("os", PStr os); ("os_version", PStr os_version);
    ("language", PStr language);
    ("language_version", PStr language_version) ].

Definition get_runtime (env : environment) : M (dict * dict) :=
  let runtime_env := runtime_environment env in
  framework <-
    lift (Framework "langchain" (dict_get runtime_env "library_version")) ;;
  pwd <-
    lift (match environ_PWD env with
          | Some p => Ok p
          | None => Raise (Exn KeyError "'PWD'" None)
          end) ;;
  let runtime :=
    Runtime (uname_node env) pwd
            (get_default runtime_env "platform" "unknown")
            (uname_system env) (uname_version env)
            (get_default runtime_env "runtime" "unknown")
            (get_default runtime_env "runtime_version" "unknown") in
  if contains "Darwin" (uname_system env) then
    let runtime := dict_set runtime "type" (PStr "desktop") in
    log DEBUG "MacOS" ;;
    local_runtime <- lift (get_local_runtime env "local") ;;
    let runtime :=
      dict_set runtime "ip" (get_default local_runtime "ip" (PStr "")) in
    let runtime :=
      dict_set runtime "runtime"
               (get_default local_runtime "runtime" (PStr "local")) in
    ret (framework, runtime)
  else
    curr_runtime <- lift (get_local_runtime env "local") ;;
    let runtime :=
      dict_set runtime "type"
               (get_default curr_runtime "type" (PStr "unknown")) in
    let runtime :=
      dict_set runtime "ip" (get_default curr_runtime "ip" (PStr "")) in
    let runtime :=
      dict_set runtime "runtime"
               (get_default curr_runtime "runtime" (PStr "unknown")) in
    log DEBUG "runtime" ;;
    log DEBUG "framework" ;;
    ret (framework, runtime).

(** [App(name=..., ...)], as the dictionary of its fields. *)
Definition App (name owner description load_id : string)
  (runtime framework : dict) (plugin_version : string) : dict :=
  [ ("name", PStr name); ("owner", PStr owner);
    ("description", PStr description); ("load_id", PStr load_id);
    ("runtime", PDict runtime); ("framework", PDict framework);
    ("plugin_version", PStr plugin_version) ].

End Pebblo.
Import Pebblo.

(* ================================================================= *)
(** ** document_loaders/daxa.py: class [DaxaSafeLoader] *)

Module Daxa.

(** The instance attributes that [__init__] sets. *)
Record DaxaSafeLoader : Type := {
  app_name : string;
  load_id : string;
  loader : Loader;
  owner : string;
  description : string;
  source_path : string;
  source_owner : string;
  docs : list Document;
  source_type : string;
  source_size : nat;
  loader_details : dict;
  app : dict
}.

(** [self.docs = ds] *)
Definition set_docs (self : DaxaSafeLoader) (ds : list Document)
  : DaxaSafeLoader :=
  {| app_name := app_name self; load_id := load_id self;
     loader := loader self; owner := owner self;
     description := description self; source_path := source_path self;
     source_owner := source_owner self; docs := ds;
     source_type := source_type self; source_size := source_size self;
     loader_details := loader_details self; app := app self |}.

(** [self.__class__.__name__] inside a method of the wrapper. *)
Definition class_name : string := "DaxaSafeLoader".

Definition set_discover_sent : M unit :=
  fun w =>
    (Ok tt, {| discover_sent := true; loader_sent := loader_sent w;
               uuids_drawn := uuids_drawn w; events := events w |}).

Definition set_loader_sent : M unit :=
  fun w =>
    (Ok tt, {| discover_sent := discover_sent w; loader_sent := true;
               uuids_drawn := uuids_drawn w; events := events w |}).

Definition get_file_owner_from_path (env : environment)
  (file_path : option string) : string :=
  match (let? file_owner_uid := os_stat_uid (host env) file_path in
         getpwuid (passwd (host env)) file_owner_uid) with
  | Ok file_owner_name => file_owner_name
  | Raise _ => "unknown"
  end.

(** The inner loop of [get_source_size]:
    [for f in filenames: ...]. *)
Fixpoint sum_filenames (h : Os.host) (dirpath : string)
  (fnames : list string) (total_size : nat) : result nat :=
  match fnames with
  | [] => Ok total_size
  | f :: rest =>
      let fp := path_join dirpath f in
      if negb (islink h fp) then
        let? sz := getsize h fp in
        sum_filenames h dirpath rest (total_size + sz)
      else sum_filenames h dirpath rest total_size
  end.

(** The outer loop: [for dirpath, _, filenames in os.walk(...)]. *)
Fixpoint sum_walk (h : Os.host)
  (triples : list (string * list string * list string)) (total_size : nat)
  : result nat :=
  match triples with
  | [] => Ok total_size
  | (dirpath, _, fnames) :: rest =>
      let? total_size := sum_filenames h dirpath fnames total_size in
      sum_walk h rest total_size
  end.

Definition unbound_size (env : environment) : exn :=
  Exn UnboundLocalError (unbound_local_message env "size") None.

(** [get_source_size].  The local [size] is bound in the two branches
    only; [return size] with [size] unbound raises. *)
Definition get_source_size (env : environment) (source_path : option string)
  : result nat :=
  let h := host env in
  let? size :=
    let? is_file := os_path_isfile h source_path in
    if is_file then
      let? sz := os_path_getsize h source_path in Ok (Some sz)
    else
      let? is_dir := os_path_isdir h source_path in
      if is_dir then
        let total_size := 0 in
        let? triples := os_walk h source_path in
        let? total_size := sum_walk h triples total_size in
        Ok (Some total_size)
      else Ok None in
  match size with
  | Some sz => Ok sz
  | None => Raise (unbound_size env)
  end.

(** [d.get(k)] as a Python value. *)
Definition get_or_none (d : dict) (k : string) : pyval :=
  match dict_get d k with Some v => v | None => PNone end.

(** A metadata value as the path argument it is used as. *)
Definition as_path (v : pyval) : option string :=
  match v with PStr s => Some s | _ => None end.

(** The body of the loop over [doc_content] in [_send_loader_doc]. *)
Definition doc_record (env : environment) (doc : dict) : result pyval :=
  let md := match dict_get doc "metadata" with
            | Some (PDict m) => m
            | _ => []
            end in
  let doc_source_path :=
    get_full_path (Path_resolve env) (as_path (get_or_none md "source")) in
  let doc_source_owner := get_file_owner_from_path env doc_source_path in
  let? doc_source_size := get_source_size env doc_source_path in
  Ok (PDict [ ("doc", get_or_none doc "page_content");
              ("source_path", opt_val doc_source_path);
              ("last_modified", get_or_none md "last_modified");
              ("file_owner", PStr doc_source_owner);
              ("source_size", PInt (Z.of_nat doc_source_size)) ]).

Fixpoint doc_records (env : environment) (doc_content : list dict)
  : result (list pyval) :=
  match doc_content with
  | [] => Ok []
  | doc :: rest =>
      let? r := doc_record env doc in
      let? rs := doc_records env rest in
      Ok (r :: rs)
  end.

(** [_send_loader_doc], first part: the payload dictionary. *)
Definition loader_doc_payload (env : environment) (self : DaxaSafeLoader)
  (loading_end : bool) : result dict :=
  let doc_content := map Document_dict (docs self) in
  let? docs := doc_records env doc_content in
  let payload :=
    [ ("name", PStr (app_name self));
      ("owner", PStr (owner self));
      ("docs", PList docs);
      ("plugin_version", PStr PLUGIN_VERSION);
      ("load_id", PStr (load_id self));
      ("loader_details", PDict (loader_details self));
      ("loading_end", PStr "false");
      ("file_owner", PStr (source_owner self)) ] in
  let payload :=
    if loading_end then dict_set payload "loading_end" (PStr "true")
    else payload in
  Ok payload.

Definition loader_doc_url (env : environment) : string :=
  CLASSIFIER_URL env ++ "/loader/doc".

(** [_send_loader_doc], the [try] statement. *)
Definition post_loader_doc (env : environment) (payload : dict) : M unit :=
  let load_doc_url := loader_doc_url env in
  try_except
    (resp <- post env load_doc_url payload ;;
     (if negb (Z.eqb (status_code resp) HTTP_OK)
         || negb (Z.eqb (status_code resp) HTTP_BAD_GATEWAY)
      then log DEBUG "Received unexpected HTTP response code"
      else ret tt) ;;
     log DEBUG "send_loader_doc: request" ;;
     _ <- lift (json resp) ;;
     log DEBUG "send_loader_doc: response")
    (fun e =>
       if subclass (exn_cls e) RequestException
       then log DEBUG "An exception caught during api request"
       else log WARNING "An Exception caught in _send_loader_doc").

(** [_send_loader_doc], second part: line 100, which looks
    [model_validate] up on [Doc], then the request and the class flag. *)
Definition send_payload (env : environment) (payload : dict)
  (loading_end : bool) : M unit :=
  payload <- lift (let? model := Doc_model_validate payload in
                   model_dump "Doc" model) ;;
  post_loader_doc env payload ;;
  if loading_end then set_loader_sent else ret tt.

Definition _send_loader_doc (env : environment) (self : DaxaSafeLoader)
  (loading_end : bool) : M unit :=
  payload <- lift (loader_doc_payload env self loading_end) ;;
  send_payload env payload loading_end.

Definition app_discover_url (env : environment) : string :=
  CLASSIFIER_URL env ++ "/app/discover".

(** [_send_discover]: line 117 looks [model_dump] up on the app,
    before the [try] statement. *)
Definition _send_discover (env : environment) (self : DaxaSafeLoader)
  : M unit :=
  payload <- lift (model_dump "App" (app self)) ;;
  let app_discover_url := app_discover_url env in
  try_except
    (resp <- post env app_discover_url payload ;;
     log DEBUG "send_discover: request" ;;
     _ <- lift (json resp) ;;
     log DEBUG "send_discover: response" ;;
     if Z.eqb (status_code resp) HTTP_OK
        || Z.eqb (status_code resp) HTTP_BAD_GATEWAY
     then set_discover_sent
     else log DEBUG "Received unexpected HTTP response code")
    (fun e =>
       if subclass (exn_cls e) RequestException
       then log WARNING "An exception caught during api request"
       else log WARNING "An Exception caught in _send_discover").

Definition _get_app_details (env : environment)
  (app_name owner description load_id : string) : M dict :=
  fr <- get_runtime env ;;
  let '(framework, runtime) := fr in
  ret (App app_name owner description load_id runtime framework
           PLUGIN_VERSION).

(** [str(type(self.loader)).split(".")[-1].split("'")[0]] *)
Definition loader_name_of (l : Loader) : string :=
  hd EmptyString
     (split_on "'" (last (split_on "." (type_str l)) EmptyString)).

(** [DaxaSafeLoader(langchain_loader, app_id, owner, description)].
    Past the two checks [app_id] and [owner] are strings. *)
Definition __init__ (env : environment) (langchain_loader : Loader)
  (app_id owner : pyval) (description : string) : M DaxaSafeLoader :=
  if negb (truthy app_id) || negb (is_str app_id) then
    raise (Exn NameError "No app_id is passed or invalid app_id." None)
  else if negb (truthy owner) || negb (is_str owner) then
    raise (Exn NameError "No owner is passed or invalid owner." None)
  else
    let app_name := py_str app_id in
    load_id <- fresh_uuid env ;;
    let loader := langchain_loader in
    let owner := py_str owner in
    source_path <- get_loader_full_path env loader ;;
    let source_owner := get_file_owner_from_path env (Some source_path) in
    let loader_name := loader_name_of loader in
    let source_type := get_loader_type loader_name in
    source_size <- lift (get_source_size env (Some source_path)) ;;
    let loader_details :=
      [ ("loader", PStr loader_name);
        ("source_path", PStr source_path);
        ("source_type", PStr source_type);
        ("source_size", PInt (Z.of_nat source_size)) ] in
    app <- _get_app_details env app_name owner description load_id ;;
    let self :=
      {| app_name := app_name; load_id := load_id; loader := loader;
         owner := owner; description := description;
         source_path := source_path; source_owner := source_owner;
         docs := []; source_type := source_type;
         source_size := source_size; loader_details := loader_details;
         app := app |} in
    _send_discover env self ;;
    ret self.

(** [load]: the wrapper after the call, and the list returned. *)
Definition load (env : environment) (self : DaxaSafeLoader)
  : M (DaxaSafeLoader * list Document) :=
  ds <- lift (loader_load (loader self)) ;;
  let self := set_docs self ds in
  _send_loader_doc env self true ;;
  ret (self, docs self).

(** [lazy_load] is a generator function.  A generator object is
    created without running any of the body; it is then either
    suspended at the [yield], holding the iterator of the wrapped
    loader, or finished. *)
Inductive generator : Type :=
| Created
| Suspended (doc_iterator : list Document)
| Finished.

(** One round of the [while True] loop. *)
Definition lazy_load_loop (env : environment) (self : DaxaSafeLoader)
  (doc_iterator : list Document)
  : M (DaxaSafeLoader * generator * option (list Document)) :=
  match doc_iterator with
  | [] =>
      let self := set_docs self [] in
      _send_loader_doc env self true ;;
      ret (self, Finished, None)
  | doc :: rest =>
      let self := set_docs self [doc] in
      _send_loader_doc env self false ;;
      ret (self, Suspended rest, Some (docs self))
  end.

(** [next(gen)]: the batch yielded, or [None] when the generator
    returns (the caller sees [StopIteration]).  A generator that raised
    is finished. *)
Definition lazy_load_next (env : environment) (self : DaxaSafeLoader)
  (gen : generator)
  : M (DaxaSafeLoader * generator * option (list Document)) :=
  match gen with
  | Created =>
      doc_iterator <-
        try_except (lift (loader_lazy_load (loader self)))
          (fun exc =>
             if subclass (exn_cls exc) NotImplementedError then
               let err_str := class_name ++ " does not implement lazy_load()" in
               log ERROR err_str ;;
               raise (Exn NotImplementedError err_str (Some exc))
             else raise exc) ;;
      lazy_load_loop env self doc_iterator
  | Suspended doc_iterator => lazy_load_loop env self doc_iterator
  | Finished => ret (self, Finished, None)
  end.

(** A consumer that asks for at most [n] batches, as
    [itertools.islice(wrapper.lazy_load(), n)] does, and collects them. *)
Fixpoint take_batches (env : environment) (n : nat) (self : DaxaSafeLoader)
  (gen : generator) : M (list (list Document)) :=
  match n with
  | O => ret []
  | S n' =>
      r <- lazy_load_next env self gen ;;
      match r with
      | (self', gen', Some batch) =>
          rest <- take_batches env n' self' gen' ;;
          ret (batch :: rest)
      | (_, _, None) => ret []
      end
  end.

(** A path string that names the directory at [dir]: whatever
    components follow it are resolved from that directory. *)
Definition names_dir (h : Os.host) (s : string) (dir : path) : Prop :=
  s <> EmptyString /\
  exists links, forall follow_last c more,
    namei (root h) MAXSYMLINKS follow_last (start_dir h s)
          (split_on "/" s ++ c :: more)%list
    = namei (root h) links follow_last dir (c :: more).

(** What the two loops of [get_source_size] add up to on the walk of a
    directory: the invariant of the walk. *)
Definition walk_sums (h : Os.host) (d : node) : Prop :=
  forall (s : string) (dir : path) (t : nat),
    wf_node d = true ->
    names_dir h s dir ->
    get_node (root h) dir = Some d ->
    match d with
    | Dir _ _ =>
        sum_walk h (walk_node (root h) s dir d) t = Ok (t + tree_size d)
    | _ => True
    end.

End Daxa.
Import Daxa.

(* ================================================================= *)
(** ** A concrete host, loaders and documents *)

Module Fixtures.

Definition st (uid size : nat) : stat_result :=
  {| st_uid := uid; st_size := size |}.

(** [/data] holds two files of 10 and 20 bytes, a symbolic link to the
    second and a symbolic link to the directory [/srv/archive]. *)
Definition data_dir : node :=
  Dir (st 1000 4096)
    [ ("a.txt", File (st 1000 10));
      ("b.txt", File (st 1000 20));
      ("latest", Symlink "b.txt");
      ("lnk", Symlink "/srv/archive") ].

Definition archive_dir : node :=
  Dir (st 1000 4096) [ ("c.txt", File (st 1001 5)) ].

Definition root_dir : node :=
  Dir (st 0 4096)
    [ ("data", data_dir);
      ("srv", Dir (st 0 4096)
                [ ("archive", archive_dir);
                  ("notes.md", File (st 1000 7));
                  ("current", Symlink "archive");
                  ("gone", Symlink "nowhere") ]) ].

Definition the_host : Os.host :=
  {| root := root_dir; cwd := ["data"]; passwd := [(1000, "alice")] |}.

Definition ok_response : Response :=
  {| status_code := 200; json := Ok (PDict []) |}.

(** A host whose network answers every request with [200]; its
    interpreter words the [UnboundLocalError] as Python 3.10 does. *)
Definition env_up : environment :=
  {| host := the_host;
     Path_resolve := lexical_resolve "/data";
     PEBBLO_CLASSIFIER_URL := None;
     environ_PWD := Some "/data";
     runtime_environment :=
       [ ("library_version", "0.1.12"); ("platform", "Linux");
         ("runtime", "python"); ("runtime_version", "3.10.12") ];
     uname_node := "box";
     uname_system := "Linux";
     uname_version := "6.1";
     gethostname := "box";
     gethostbyname := fun _ => Ok "127.0.0.1";
     getcwd := "/data";
     requests_post := fun _ _ _ => Ok ok_response;
     uuid4 := fun n => "uuid-" ++ int_str (Z.of_nat n);
     unbound_local_message :=
       fun x => "local variable '" ++ x ++ "' referenced before assignment" |}.

(** The same host with the network down: every request raises. *)
Definition env_down : environment :=
  {| host := the_host;
     Path_resolve := lexical_resolve "/data";
     PEBBLO_CLASSIFIER_URL := None;
     environ_PWD := Some "/data";
     runtime_environment :=
       [ ("library_version", "0.1.12"); ("platform", "Linux");
         ("runtime", "python"); ("runtime_version", "3.10.12") ];
     uname_node := "box";
     uname_system := "Linux";
     uname_version := "6.1";
     gethostname := "box";
     gethostbyname := fun _ => Ok "127.0.0.1";
     getcwd := "/data";
     requests_post :=
       fun _ _ _ => Raise (Exn RequestException "Connection refused" None);
     uuid4 := fun n => "uuid-" ++ int_str (Z.of_nat n);
     unbound_local_message :=
       fun x => "local variable '" ++ x ++ "' referenced before assignment" |}.

Definition d1 : Document :=
  {| page_content := "first"; metadata := [ ("source", Some "a.txt") ] |}.

Definition d2 : Document :=
  {| page_content := "second";
     metadata := [ ("source", Some "/data/b.txt") ] |}.

(** A loader of a file, with eager and lazy loading. *)
Definition csv_loader : Loader :=
  {| loader_module := "langchain_community.document_loaders.csv_loader";
     loader_qualname := "CSVLoader";
     loader_class := "CSVLoader";
     loader_instance_of := [ BaseLoader ];
     loader_attrs := [ ("file_path", PStr "a.txt") ];
     loader_load := Ok [ d1; d2 ];
     loader_lazy_load := Ok [ d1; d2 ] |}.

(** A loader of a file that inherits [BaseLoader.lazy_load]. *)
Definition eager_loader : Loader :=
  {| loader_module := "langchain_community.document_loaders.pdf";
     loader_qualname := "UnstructuredPDFLoader";
     loader_class := "UnstructuredPDFLoader";
     loader_instance_of := [ BaseLoader ];
     loader_attrs := [ ("file_path", PStr "b.txt") ];
     loader_load := Ok [ d2 ];
     loader_lazy_load :=
       Raise (Exn NotImplementedError
                "UnstructuredPDFLoader does not implement lazy_load()" None) |}.

(** A loader of an in-memory data frame: its source is no file. *)
Definition dataframe_loader : Loader :=
  {| loader_module := "langchain_community.document_loaders.dataframe";
     loader_qualname := "DataFrameLoader";
     loader_class := "DataFrameLoader";
     loader_instance_of := [ DataFrameLoader; BaseLoader ];
     loader_attrs := [ ("page_content_column", PStr "text") ];
     loader_load := Ok [];
     loader_lazy_load := Ok [] |}.

(** A wrapper with the attributes that [__init__] has set by line 43,
    for [DaxaSafeLoader(loader, "app", "me")] on [the_host] around a
    loader of [/data/a.txt]. *)
Definition wrapper_of (l : Loader) : DaxaSafeLoader :=
  {| app_name := "app";
     load_id := "uuid-0";
     loader := l;
     owner := "me";
     description := "";
     source_path := "/data/a.txt";
     source_owner := "alice";
     docs := [];
     source_type := "file";
     source_size := 10;
     loader_details :=
       [ ("loader", PStr (loader_name_of l));
         ("source_path", PStr "/data/a.txt");
         ("source_type", PStr "file");
         ("source_size", PInt 10) ];
     app :=
       App "app" "me" "" "uuid-0"
         [ ("host", PStr "box"); ("path", PStr "/data");
           ("platform", PStr "Linux"); ("os", PStr "Linux");
           ("os_version", PStr "6.1"); ("language", PStr "python");
           ("language_version", PStr "3.10.12"); ("type", PStr "local");
           ("ip", PStr "127.0.0.1"); ("runtime", PStr "local") ]
         [ ("name", PStr "langchain"); ("version", PStr "0.1.12") ]
         PLUGIN_VERSION |}.

(** A dictionary with the eight fields that the [Doc] class declares. *)
Definition schema_valid_payload : dict :=
  [ ("name", PStr "app"); ("owner", PStr "me"); ("docs", PList []);
    ("plugin_version", PStr PLUGIN_VERSION); ("load_id", PStr "uuid-0");
    ("loader_details", PDict []); ("loading_end", PStr "true");
    ("source_owner", PStr "alice") ].

End Fixtures.

(* ================================================================= *)
(** ** What the specification says, as predicates on runs *)

Module Claims.

(** The requests issued between two states of the world. *)
Definition new_posts (w w' : world) : list (string * dict) :=
  skipn (List.length (posts (events w))) (posts (events w')).

(** The bodies of the loader/doc reports among them. *)
Definition loader_doc_reports (env : environment) (w w' : world)
  : list dict :=
  map snd
      (filter (fun ub => String.eqb (fst ub) (loader_doc_url env))
              (new_posts w w')).

(** The content field of a per-document record of a report. *)
Definition record_doc (r : pyval) : pyval :=
  match r with
  | PDict d => get_or_none d "doc"
  | _ => PNone
  end.

(** The error of [lazy_load] as described: a [NotImplementedError]
    whose message names the class of the wrapped loader. *)
Definition lazy_error_names_loader (env : environment)
  (self : DaxaSafeLoader) (w : world) : Prop :=
  forall exc,
    loader_lazy_load (loader self) = Raise exc ->
    exn_cls exc = NotImplementedError ->
    exists e w',
      lazy_load_next env self Created w = (Raise e, w') /\
      exn_cls e = NotImplementedError /\
      contains (loader_class (loader self)) (exn_msg e) = true.

End Claims.
Import Claims.

(* ================================================================= *)
(** ** Further loaders and observations *)

Module Samples.

Definition base_loader (module cls : string) (attrs : dict) : Loader :=
  {| loader_module := module;
     loader_qualname := cls;
     loader_class := cls;
     loader_instance_of := [ BaseLoader ];
     loader_attrs := attrs;
     loader_load := Ok [];
     loader_lazy_load := Ok [] |}.

(** A loader with a bucket that is neither of the two file loaders. *)
Definition s3_directory_loader : Loader :=
  base_loader "langchain_community.document_loaders.s3_directory"
    "S3DirectoryLoader" [ ("bucket", PStr "corpus"); ("prefix", PStr "a/") ].

(** A loader of the library's [GCSFileLoader], and a loader of another
    class that has the same name and attributes. *)
Definition gcs_loader : Loader :=
  {| loader_module := "langchain_community.document_loaders.gcs_file";
     loader_qualname := "GCSFileLoader";
     loader_class := "GCSFileLoader";
     loader_instance_of := [ GCSFileLoader; BaseLoader ];
     loader_attrs := [ ("bucket", PStr "corpus"); ("blob", PStr "a.txt") ];
     loader_load := Ok [];
     loader_lazy_load := Ok [] |}.

Definition gcs_namesake : Loader :=
  base_loader "app.loaders" "GCSFileLoader"
    [ ("bucket", PStr "corpus"); ("blob", PStr "a.txt") ].

(** A value that is no loader: an instance of [object]. *)
Definition plain_object : Loader :=
  {| loader_module := "builtins";
     loader_qualname := "object";
     loader_class := "object";
     loader_instance_of := [];
     loader_attrs := [];
     loader_load := Raise (Exn AttributeError
                             "'object' object has no attribute 'load'" None);
     loader_lazy_load :=
       Raise (Exn AttributeError
                "'object' object has no attribute 'lazy_load'" None) |}.

(** A loader of a file behind a link to a directory and [..]. *)
Definition notes_loader : Loader :=
  base_loader "langchain_community.document_loaders.text" "TextLoader"
    [ ("file_path", PStr "/data/lnk/../notes.md") ].

(** A document without a [source], and a loader that returns it. *)
Definition bare_doc : Document :=
  {| page_content := "text"; metadata := [ ("title", Some "t") ] |}.

Definition bare_loader : Loader :=
  {| loader_module := "langchain_community.document_loaders.text";
     loader_qualname := "TextLoader";
     loader_class := "TextLoader";
     loader_instance_of := [ BaseLoader ];
     loader_attrs := [ ("file_path", PStr "a.txt") ];
     loader_load := Ok [ bare_doc ];
     loader_lazy_load := Ok [ bare_doc ] |}.

End Samples.

Module Observations.

(** What [get_loader_full_path] and [get_runtime] return; neither
    depends on the state, which they only extend with log records. *)
Definition location_of (env : environment) (l : Loader) : result string :=
  fst (get_loader_full_path env l initial_world).

Definition runtime_of (env : environment) : result (dict * dict) :=
  fst (get_runtime env initial_world).

(** The part of the state that log records leave alone. *)
Definition same_but_logs (w w' : world) : Prop :=
  posts (events w') = posts (events w) /\
  uuids_drawn w' = uuids_drawn w /\
  discover_sent w' = discover_sent w /\
  loader_sent w' = loader_sent w.

End Observations.
Import Observations.

(* ================================================================= *)
(** ** Properties of the utilities *)

Section Utilities.

Lemma str_in_In (x : string) (l : list string) :
  str_in x l = true <-> In x l.
Proof.
  unfold str_in. rewrite existsb_exists. split.
  - intros [y [Hin Heq]]. apply String.eqb_eq in Heq. now subst.
  - intros Hin. exists x. split; [assumption | apply String.eqb_refl].
Qed.

Lemma str_in_not_In (x : string) (l : list string) :
  str_in x l = false <-> ~ In x l.
Proof.
  rewrite <- str_in_In. destruct (str_in x l); split; congruence.
Qed.

(** C7. [get_loader_type] looks the name up in the four tables in the
    order file, dir, in-memory, remote_db and returns the category of
    the first table that holds exactly that name; a name in none of
    the tables is "unknown", also when it only resembles an entry. *)
Theorem get_loader_type_first_match (name : string) :
  (In name file_loader -> get_loader_type name = "file") /\
  (~ In name file_loader -> In name dir_loader ->
   get_loader_type name = "dir") /\
  (~ In name file_loader -> ~ In name dir_loader -> In name in_memory ->
   get_loader_type name = "in-memory") /\
  (~ In name file_loader -> ~ In name dir_loader -> ~ In name in_memory ->
   In name remote_db -> get_loader_type name = "remote_db") /\
  (~ In name file_loader -> ~ In name dir_loader -> ~ In name in_memory ->
   ~ In name remote_db -> get_loader_type name = "unknown") /\
  get_loader_type "CSVLoade" = "unknown" /\
  get_loader_type "CSVLoaderV2" = "unknown" /\
  get_loader_type "csvloader" = "unknown".
Proof.
  unfold get_loader_type, LOADER_TYPE_MAPPING, get_loader_type_in.
  split; [| split; [| split; [| split; [| split; [| split; [| split]]]]]].
  - intros H. apply str_in_In in H. now rewrite H.
  - intros H1 H2. apply str_in_not_In in H1. apply str_in_In in H2.
    now rewrite H1, H2.
  - intros H1 H2 H3. apply str_in_not_In in H1, H2. apply str_in_In in H3.
    now rewrite H1, H2, H3.
  - intros H1 H2 H3 H4. apply str_in_not_In in H1, H2, H3.
    apply str_in_In in H4. now rewrite H1, H2, H3, H4.
  - intros H1 H2 H3 H4. apply str_in_not_In in H1, H2, H3, H4.
    now rewrite H1, H2, H3, H4.
  - reflexivity.
  - reflexivity.
  - reflexivity.
Qed.

Lemma get_loader_type_first_match_witness :
  get_loader_type "S3DirLoader" = "dir" /\
  get_loader_type "NotionDBLoader" = "remote_db" /\
  get_loader_type "WebBaseLoader" = "unknown".
Proof.
  pose proof (get_loader_type_first_match "S3DirLoader") as Hd.
  pose proof (get_loader_type_first_match "NotionDBLoader") as Hr.
  pose proof (get_loader_type_first_match "WebBaseLoader") as Hu.
  destruct Hd as (_ & Hd & _).
  destruct Hr as (_ & _ & _ & Hr & _).
  destruct Hu as (_ & _ & _ & _ & Hu & _).
  split; [| split].
  - apply Hd.
    + apply str_in_not_In. reflexivity.
    + apply str_in_In. reflexivity.
  - apply Hr; try (apply str_in_not_In; reflexivity).
    apply str_in_In. reflexivity.
  - apply Hu; apply str_in_not_In; reflexivity.
Defined.

Lemma passes_through_true_iff (path : string) :
  passes_through path = true <->
  (path = EmptyString \/ starts_with_slash path = true \/
   contains "://" path = true \/ In path [ "unknown"; "-"; "in-memory" ]).
Proof.
  unfold passes_through, path_sentinels.
  rewrite !orb_true_iff, String.eqb_eq, str_in_In. tauto.
Qed.

(** C8. [get_full_path] returns a path string unchanged when it is
    empty, begins with "/", contains "://" or is one of the sentinels
    "unknown", "-", "in-memory"; every other path is returned as
    [str(pathlib.Path(path).resolve())], its absolute resolved form. *)
Theorem get_full_path_unchanged_or_resolved
  (resolve : string -> string) (path : string) :
  ((path = EmptyString \/ starts_with_slash path = true \/
    contains "://" path = true \/
    In path [ "unknown"; "-"; "in-memory" ]) ->
   get_full_path resolve (Some path) = Some path) /\
  (path <> EmptyString -> starts_with_slash path = false ->
   contains "://" path = false ->
   ~ In path [ "unknown"; "-"; "in-memory" ] ->
   get_full_path resolve (Some path) = Some (resolve path)).
Proof.
  unfold get_full_path, get_full_path_str. split.
  - intros H. apply passes_through_true_iff in H. now rewrite H.
  - intros Hne Hslash Hscheme Hsent.
    destruct (passes_through path) eqn:E; [| reflexivity].
    apply passes_through_true_iff in E.
    destruct E as [E | [E | [E | E]]]; congruence || contradiction.
Qed.

Lemma get_full_path_unchanged_or_resolved_witness :
  get_full_path (lexical_resolve "/srv/app") (Some "/a/b") = Some "/a/b" /\
  get_full_path (lexical_resolve "/srv/app") (Some "http://x/y")
  = Some "http://x/y" /\
  get_full_path (lexical_resolve "/srv/app") (Some "in-memory")
  = Some "in-memory" /\
  get_full_path (lexical_resolve "/srv/app") (Some "rel/f.txt")
  = Some (lexical_resolve "/srv/app" "rel/f.txt") /\
  lexical_resolve "/srv/app" "rel/f.txt" = "/srv/app/rel/f.txt".
Proof.
  split; [| split; [| split; [| split]]].
  - apply (get_full_path_unchanged_or_resolved _ "/a/b").
    right; left; reflexivity.
  - apply (get_full_path_unchanged_or_resolved _ "http://x/y").
    right; right; left; reflexivity.
  - apply (get_full_path_unchanged_or_resolved _ "in-memory").
    right; right; right; simpl; tauto.
  - apply (get_full_path_unchanged_or_resolved _ "rel/f.txt").
    + discriminate.
    + reflexivity.
    + reflexivity.
    + apply str_in_not_In. reflexivity.
  - reflexivity.
Defined.

End Utilities.


(* ================================================================= *)
(** ** Strings and their components *)

Section Strings.

Lemma split_on_nonempty (c : ascii) (s : string) : split_on c s <> [].
Proof.
  destruct s as [| a s]; simpl; [discriminate |].
  destruct (Ascii.eqb a c); [discriminate |].
  destruct (split_on c s); discriminate.
Qed.

(** Splitting at an occurrence of the separator. *)
Lemma split_on_app (c : ascii) (s1 s2 : string) :
  split_on c (s1 ++ String c s2) = (split_on c s1 ++ split_on c s2)%list.
Proof.
  induction s1 as [| a s1 IH]; cbn [append split_on].
  - now rewrite Ascii.eqb_refl.
  - destruct (Ascii.eqb a c).
    + now rewrite IH.
    + rewrite IH.
      pose proof (split_on_nonempty c s1) as Hne.
      destruct (split_on c s1) as [| h r]; [contradiction |]. reflexivity.
Qed.

Lemma split_on_absent (c : ascii) (s : string) :
  ~ In c (list_ascii_of_string s) -> split_on c s = [s].
Proof.
  induction s as [| a s IH]; cbn [list_ascii_of_string split_on];
    [reflexivity |].
  intros H. destruct (Ascii.eqb_spec a c) as [-> | _].
  - contradiction H. now left.
  - rewrite IH; [reflexivity |]. intros Hin. apply H. now right.
Qed.

Lemma last_app_nonempty {A : Type} (l1 l2 : list A) (d : A) :
  l2 <> [] -> last (l1 ++ l2) d = last l2 d.
Proof.
  intros Hne. induction l1 as [| x l1 IH]; [reflexivity |].
  change ((x :: l1) ++ l2)%list with (x :: (l1 ++ l2))%list.
  destruct (l1 ++ l2)%list as [| y r] eqn:E.
  - apply app_eq_nil in E as [_ ->]. contradiction.
  - exact IH.
Qed.

Lemma append_assoc (a b c : string) : (a ++ b) ++ c = a ++ (b ++ c).
Proof. induction a as [| x a IH]; cbn; congruence. Qed.

Lemma in_append (c : ascii) (s t : string) :
  In c (list_ascii_of_string (s ++ t)) ->
  In c (list_ascii_of_string s) \/ In c (list_ascii_of_string t).
Proof.
  induction s as [| a s IH]; cbn [append list_ascii_of_string In];
    [now right |].
  intros [H | H]; [left; now left |].
  destruct (IH H); [left; now right | now right].
Qed.

Lemma starts_with_slash_append (s t : string) :
  s <> "" -> starts_with_slash (s ++ t) = starts_with_slash s.
Proof. destruct s; [contradiction | reflexivity]. Qed.

Lemma append_nonempty (s t : string) : s <> "" -> s ++ t <> "".
Proof. destruct s; [contradiction | discriminate]. Qed.

Lemma ends_with_slash_inv (s : string) :
  ends_with_slash s = true -> exists s0, s = s0 ++ "/".
Proof.
  induction s as [| a s IH]; [discriminate |].
  destruct s as [| b s].
  - cbn. intros H. apply Ascii.eqb_eq in H as ->. now exists "".
  - intros H. destruct (IH H) as [s0 Hs0]. exists (String a s0).
    cbn [append]. now rewrite <- Hs0.
Qed.

End Strings.

(* ================================================================= *)
(** ** Properties of the file-system helpers *)

Section FileSystem.

(** Induction on a file tree, with the hypothesis available at every
    entry of a directory. *)
Lemma node_induction (P : node -> Prop)
  (HFile : forall st, P (File st))
  (HDir : forall st es, Forall (fun e => P (snd e)) es -> P (Dir st es))
  (HLink : forall t, P (Symlink t)) :
  forall n, P n.
Proof.
  fix IH 1. intros [st | st es | t].
  - apply HFile.
  - apply HDir. induction es as [| e es IHes]; constructor.
    + apply IH.
    + exact IHes.
  - apply HLink.
Qed.

Lemma get_node_app (n : node) (p q : path) :
  get_node n (p ++ q)%list =
  match get_node n p with
  | Some m => get_node m q
  | None => None
  end.
Proof.
  revert n. induction p as [| c p IHp]; intros n; simpl.
  - reflexivity.
  - destruct n as [st | st es | t]; try reflexivity.
    destruct (dict_get es c); [apply IHp | reflexivity].
Qed.

(** In a directory with distinct names, looking a listed name up gives
    the entry listed. *)
Lemma unique_names_get (es : list (string * node)) (k : string) (m : node) :
  unique_names (map fst es) = true -> In (k, m) es -> dict_get es k = Some m.
Proof.
  induction es as [| [k' m'] es IHes]; simpl; [tauto |].
  intros Hu [Heq | Hin].
  - injection Heq as -> ->. now rewrite String.eqb_refl.
  - apply andb_prop in Hu as [Hk Hu].
    destruct (String.eqb k k') eqn:E.
    + apply String.eqb_eq in E. subst k'.
      apply negb_true_iff, str_in_not_In in Hk.
      exfalso. apply Hk. apply in_map_iff. now exists (k, m).
    + now apply IHes.
Qed.

(** *** Path resolution *)

Lemma namei_cons (fs : node) (l : nat) (fl : bool) (cur : path)
  (c : string) (rest : list string) :
  namei fs l fl cur (c :: rest) =
  match lookup_component fs cur c with
  | Stay cur' => namei fs l fl cur' rest
  | Missing => None
  | Found p (File st) => if is_nil rest then Some (p, File st) else None
  | Found p (Symlink target) =>
      if is_nil rest && negb fl then Some (p, Symlink target)
      else
        match l with
        | O => None
        | S l' =>
            if String.eqb target "" then None
            else namei fs l' fl (if starts_with_slash target then [] else cur)
                       (split_on "/" target ++ rest)%list
        end
  | Found _ (Dir _ _) => None
  end.
Proof. destruct l; reflexivity. Qed.

Lemma namei_nil (fs : node) (l : nat) (fl : bool) (cur : path) :
  namei fs l fl cur [] =
  match get_node fs cur with Some d => Some (cur, d) | None => None end.
Proof. destruct l; reflexivity. Qed.

Lemma is_nil_app_cons {A : Type} (l : list A) (x : A) (r : list A) :
  is_nil (l ++ x :: r)%list = false.
Proof. now destruct l. Qed.

Lemma lookup_component_found (fs : node) (cur : path) (c : string)
  (p : path) (n : node) :
  lookup_component fs cur c = Found p n -> get_node fs p = Some n.
Proof.
  unfold lookup_component.
  destruct (String.eqb c "" || String.eqb c "."); [discriminate |].
  destruct (String.eqb c ".."); [discriminate |].
  destruct (get_node fs cur) as [[st | st es | t] |] eqn:E; try discriminate.
  destruct (dict_get es c) as [[st' | st' es' | t'] |] eqn:Ec;
    try discriminate;
    intros H; injection H as <- <-;
    rewrite get_node_app, E; cbn; now rewrite Ec.
Qed.

(** What a resolution returns is the node at the place it returns. *)
Lemma namei_sound (fs : node) :
  forall l fl cur cs p n,
    namei fs l fl cur cs = Some (p, n) -> get_node fs p = Some n.
Proof.
  induction l as [| l IHl]; intros fl cur cs; revert cur;
    induction cs as [| c rest IHcs]; intros cur p n;
    rewrite ?namei_nil, ?namei_cons;
    try (destruct (get_node fs cur) as [d |] eqn:E; [| discriminate];
         intros H; injection H as <- <-; exact E);
    destruct (lookup_component fs cur c) as [cur' | p0 [st | st es | t] |]
      eqn:E; try discriminate; try apply IHcs;
    try (destruct (is_nil rest); [| discriminate];
         intros H; injection H as <- <-;
         exact (lookup_component_found _ _ _ _ _ E)).
  - destruct (is_nil rest && negb fl); [| discriminate].
    intros H; injection H as <- <-.
    exact (lookup_component_found _ _ _ _ _ E).
  - destruct (is_nil rest && negb fl).
    + intros H; injection H as <- <-.
      exact (lookup_component_found _ _ _ _ _ E).
    + destruct (String.eqb t ""); [discriminate | apply IHl].
Qed.

(** A resolution that ends on a directory goes on from that directory
    when more components follow. *)
Lemma namei_extend (fs : node) :
  forall l cur cs p st es,
    namei fs l true cur cs = Some (p, Dir st es) ->
    exists l', forall fl c more,
      namei fs l fl cur (cs ++ c :: more)%list = namei fs l' fl p (c :: more).
Proof.
  induction l as [| l IHl]; intros cur cs; revert cur;
    induction cs as [| c0 rest IHcs]; intros cur p st es;
    rewrite ?namei_nil, ?namei_cons.
  1, 3: (destruct (get_node fs cur) as [d |]; [| discriminate];
         intros H; injection H as <- _;
         eexists; intros; reflexivity).
  all: destruct (lookup_component fs cur c0)
         as [cur' | p0 [st0 | st0 es0 | t] |] eqn:E; try discriminate.
  all: try (intros H; apply IHcs in H as [l' Hl']; exists l';
            intros fl c more; cbn [List.app]; rewrite namei_cons, E; apply Hl').
  all: try (destruct (is_nil rest); discriminate).
  all: cbn [negb]; rewrite andb_false_r; try discriminate.
  destruct (String.eqb t "") eqn:Et; [discriminate |].
  intros H. apply IHl in H as [l' Hl']. exists l'.
  intros fl c more. cbn [List.app].
  rewrite namei_cons, E, is_nil_app_cons. cbn [andb]. rewrite Et.
  rewrite app_assoc. apply Hl'.
Qed.

(** An empty component in the middle of a path changes nothing. *)
Lemma namei_skip_empty (fs : node) :
  forall l fl cur cs rest,
    rest <> [] ->
    namei fs l fl cur (cs ++ "" :: rest)%list
    = namei fs l fl cur (cs ++ rest)%list.
Proof.
  induction l as [| l IHl]; intros fl cur cs; revert cur;
    induction cs as [| c0 cs IHcs]; intros cur rest Hrest; cbn [List.app].
  1, 3: (rewrite namei_cons; reflexivity).
  all: rewrite !namei_cons;
    destruct (lookup_component fs cur c0)
      as [cur' | p0 [st0 | st0 es0 | t] |]; try reflexivity;
    try (now apply IHcs).
  all: rewrite ?is_nil_app_cons.
  all: assert (Hn : is_nil (cs ++ rest)%list = false)
         by (destruct cs; [destruct rest; [contradiction | reflexivity]
                          | reflexivity]);
       rewrite Hn; try reflexivity; cbn [andb].
  destruct (String.eqb t ""); [reflexivity |].
  rewrite !app_assoc. now apply IHl.
Qed.

Lemma os_stat_sound (h : Os.host) (s : string) (p : path) (n : node) :
  os_stat h s = Some (p, n) -> get_node (root h) p = Some n.
Proof.
  unfold os_stat. destruct (String.eqb s ""); [discriminate |].
  apply namei_sound.
Qed.

Lemma names_dir_top (h : Os.host) (s : string) (dir : path)
  (st : stat_result) (es : list (string * node)) :
  os_stat h s = Some (dir, Dir st es) -> names_dir h s dir.
Proof.
  unfold os_stat, names_dir.
  destruct (String.eqb_spec s "") as [-> | Hs]; [discriminate |].
  intros H. split; [exact Hs |].
  exact (namei_extend _ _ _ _ _ _ _ H).
Qed.

(** *** [os.path.join] *)

Lemma valid_name_facts (k : string) :
  valid_name k = true ->
  k <> "" /\ k <> "." /\ k <> ".." /\
  ~ In "/"%char (list_ascii_of_string k) /\
  starts_with_slash k = false.
Proof.
  unfold valid_name, has_slash. intros H.
  apply andb_prop in H as [H H4]. apply andb_prop in H as [H H3].
  apply andb_prop in H as [H1 H2].
  apply negb_true_iff in H1, H2, H3, H4.
  apply String.eqb_neq in H1, H2, H3.
  assert (Hs : ~ In "/"%char (list_ascii_of_string k)).
  { intros Hin. apply not_true_iff_false in H4. apply H4.
    apply existsb_exists. exists "/"%char. split; [exact Hin | reflexivity]. }
  repeat split; try assumption.
  destruct k as [| c k]; [reflexivity |]. cbn.
  destruct (Ascii.eqb_spec c "/") as [-> | _]; [| reflexivity].
  exfalso. apply Hs. now left.
Qed.

(** The name [os.path.join(s, k)] is resolved as [s], then [k]. *)
Lemma join_resolves (h : Os.host) (s k : string) (fl : bool)
  (more : list string) :
  s <> "" -> valid_name k = true ->
  path_join s k <> "" /\
  namei (root h) MAXSYMLINKS fl (start_dir h (path_join s k))
        (split_on "/" (path_join s k) ++ more)%list
  = namei (root h) MAXSYMLINKS fl (start_dir h s)
          (split_on "/" s ++ k :: more)%list.
Proof.
  intros Hs Hk.
  destruct (valid_name_facts k Hk) as (_ & _ & _ & Hslash & Hstart).
  unfold path_join, start_dir. rewrite Hstart.
  apply String.eqb_neq in Hs as Hs'. rewrite Hs'. cbn [orb].
  destruct (ends_with_slash s) eqn:Eend.
  - destruct (ends_with_slash_inv s Eend) as [s0 ->].
    split; [now apply append_nonempty |].
    rewrite append_assoc. cbn [append].
    rewrite !split_on_app, (split_on_absent "/" k Hslash).
    cbn [split_on]. rewrite <- !app_assoc. cbn [List.app].
    rewrite namei_skip_empty by discriminate.
    destruct s0; reflexivity.
  - split; [now apply append_nonempty |].
    rewrite starts_with_slash_append by assumption.
    cbn [append]. rewrite split_on_app, (split_on_absent "/" k Hslash).
    rewrite <- app_assoc. reflexivity.
Qed.

(** *** The entries of a directory, by name *)

Lemma lookup_entry (fs : node) (dir : path) (st : stat_result)
  (es : list (string * node)) (k : string) (m : node) :
  get_node fs dir = Some (Dir st es) ->
  dict_get es k = Some m ->
  valid_name k = true ->
  lookup_component fs dir k
  = match m with
    | Dir _ _ => Stay (dir ++ [k])%list
    | _ => Found (dir ++ [k])%list m
    end.
Proof.
  intros Hdir Hk Hv.
  destruct (valid_name_facts k Hv) as (H1 & H2 & H3 & _).
  apply String.eqb_neq in H1, H2, H3.
  unfold lookup_component. rewrite H1, H2, H3, Hdir, Hk. cbn.
  now destruct m.
Qed.

Section Entries.

Variable h : Os.host.
Variables (s : string) (dir : path) (st : stat_result).
Variable es : list (string * node).
Hypothesis Hnames : names_dir h s dir.
Hypothesis Hdir : get_node (root h) dir = Some (Dir st es).

Lemma lstat_join (fl : bool) (k : string) (m : node) :
  dict_get es k = Some m -> valid_name k = true ->
  (if String.eqb (path_join s k) "" then None
   else namei (root h) MAXSYMLINKS fl (start_dir h (path_join s k))
              (split_on "/" (path_join s k)))
  = match m with
    | Dir _ _ => Some ((dir ++ [k])%list, m)
    | File _ => Some ((dir ++ [k])%list, m)
    | Symlink t =>
        if negb fl then Some ((dir ++ [k])%list, m)
        else (if String.eqb (path_join s k) "" then None
              else namei (root h) MAXSYMLINKS fl (start_dir h (path_join s k))
                         (split_on "/" (path_join s k)))
    end.
Proof.
  intros Hk Hv. destruct Hnames as [Hs [l Hl]].
  destruct (join_resolves h s k fl [] Hs Hv) as [Hne Hj].
  rewrite app_nil_r in Hj.
  apply String.eqb_neq in Hne as Hne'. rewrite Hne'.
  destruct m as [st0 | st0 es0 | t].
  - rewrite Hj, Hl, namei_cons, (lookup_entry _ _ _ _ _ _ Hdir Hk Hv).
    reflexivity.
  - rewrite Hj, Hl, namei_cons, (lookup_entry _ _ _ _ _ _ Hdir Hk Hv).
    rewrite namei_nil, get_node_app, Hdir. cbn. now rewrite Hk.
  - destruct fl; cbn [negb]; [reflexivity |].
    rewrite Hj, Hl, namei_cons, (lookup_entry _ _ _ _ _ _ Hdir Hk Hv).
    reflexivity.
Qed.

Lemma islink_join (k : string) (m : node) :
  dict_get es k = Some m -> valid_name k = true ->
  islink h (path_join s k) = is_symlink m.
Proof.
  intros Hk Hv. unfold islink, os_lstat.
  rewrite (lstat_join false k m Hk Hv). now destruct m.
Qed.

Lemma getsize_join_file (k : string) (st0 : stat_result) :
  dict_get es k = Some (File st0) -> valid_name k = true ->
  getsize h (path_join s k) = Ok (st_size st0).
Proof.
  intros Hk Hv. unfold getsize, os_stat.
  now rewrite (lstat_join true k _ Hk Hv).
Qed.

Lemma names_dir_join (k : string) (st0 : stat_result)
  (es0 : list (string * node)) :
  dict_get es k = Some (Dir st0 es0) -> valid_name k = true ->
  names_dir h (path_join s k) (dir ++ [k])%list /\
  get_node (root h) (dir ++ [k])%list = Some (Dir st0 es0).
Proof.
  intros Hk Hv. destruct Hnames as [Hs [l Hl]]. split.
  - split; [exact (proj1 (join_resolves h s k true [] Hs Hv)) |].
    exists l. intros fl c more.
    rewrite (proj2 (join_resolves h s k fl (c :: more) Hs Hv)).
    rewrite Hl, namei_cons, (lookup_entry _ _ _ _ _ _ Hdir Hk Hv).
    reflexivity.
  - rewrite get_node_app, Hdir. cbn. now rewrite Hk.
Qed.

(** The inner loop adds up the regular files of the entries. *)
Lemma sum_filenames_entries (l : list (string * node)) :
  forall t,
    (forall k m, In (k, m) l ->
                 dict_get es k = Some m /\ valid_name k = true) ->
    sum_filenames h s (filenames (root h) dir l) t
    = Ok (t + list_sum (map (fun e => own_file_size (snd e)) l)).
Proof.
  induction l as [| [k m] l IHl]; intros t Hl.
  - simpl. f_equal. lia.
  - destruct (Hl k m (or_introl eq_refl)) as [Hk Hv].
    assert (Hl' : forall k0 m0, In (k0, m0) l ->
                  dict_get es k0 = Some m0 /\ valid_name k0 = true)
      by (intros; apply Hl; now right).
    unfold filenames in *. cbn [filter map fst snd list_sum].
    destruct (entry_is_dir (root h) dir k m) eqn:Ed; cbn [negb map fst].
    + rewrite IHl by assumption. f_equal.
      destruct m as [st0 | st0 es0 | t0];
        [discriminate Ed | reflexivity | reflexivity].
    + cbn [sum_filenames]. rewrite (islink_join k m Hk Hv).
      destruct m as [st0 | st0 es0 | t0]; cbn [is_symlink negb].
      * rewrite (getsize_join_file k st0 Hk Hv). cbn [rbind].
        rewrite IHl by assumption. f_equal.
        unfold list_sum. cbn [fold_right own_file_size snd map]. lia.
      * discriminate.
      * rewrite IHl by assumption. f_equal.
Qed.

End Entries.

Lemma sum_walk_app (h : Os.host)
  (a b : list (string * list string * list string)) (t : nat) :
  sum_walk h (a ++ b)%list t =
  (let? t' := sum_walk h a t in sum_walk h b t').
Proof.
  revert t. induction a as [| [[dp dn] fn] a IHa]; intros t; simpl.
  - reflexivity.
  - destruct (sum_filenames h dp fn t); simpl; [apply IHa | reflexivity].
Qed.

Lemma tree_size_parts (m : node) :
  tree_size m = own_file_size m + subdir_size m.
Proof. destruct m; simpl; lia. Qed.

Lemma entries_size_parts (l : list (string * node)) :
  list_sum (map (fun e => tree_size (snd e)) l)
  = list_sum (map (fun e => own_file_size (snd e)) l)
    + list_sum (map (fun e => subdir_size (snd e)) l).
Proof.
  induction l as [| e l IHl]; simpl; [reflexivity |].
  rewrite IHl, (tree_size_parts (snd e)). lia.
Qed.

(** The walks of the sub-directories add up the files below them. *)
Lemma sum_walk_subdirs (h : Os.host) (s : string) (dir : path)
  (st : stat_result) (es l : list (string * node)) :
  names_dir h s dir ->
  get_node (root h) dir = Some (Dir st es) ->
  forall t,
    Forall (fun e => walk_sums h (snd e)) l ->
    forallb (fun e => wf_node (snd e)) l = true ->
    (forall k m, In (k, m) l ->
                 dict_get es k = Some m /\ valid_name k = true) ->
    sum_walk h
      (flat_map (fun e => if entry_is_dir (root h) dir (fst e) (snd e)
                             && negb (is_symlink (snd e))
                          then walk_node (root h) (path_join s (fst e))
                                         (dir ++ [fst e])%list (snd e)
                          else []) l) t
    = Ok (t + list_sum (map (fun e => subdir_size (snd e)) l)).
Proof.
  intros Hnames Hdir.
  induction l as [| [k m] l IHl]; intros t1 HF Hw Hl.
  - simpl. f_equal. lia.
  - inversion HF as [| ? ? Hm HF']; subst. cbn [snd] in Hm.
    cbn [forallb snd] in Hw. apply andb_prop in Hw as [Hwm Hwl].
    destruct (Hl k m (or_introl eq_refl)) as [Hk Hv].
    assert (Hl' : forall k0 m0, In (k0, m0) l ->
                  dict_get es k0 = Some m0 /\ valid_name k0 = true)
      by (intros; apply Hl; now right).
    cbn [flat_map fst snd map list_sum]. rewrite sum_walk_app.
    destruct m as [st1 | st1 es1 | t1'].
    + cbn. rewrite IHl by assumption. f_equal.
    + cbn [entry_is_dir is_symlink negb andb].
      destruct (names_dir_join h s dir st es Hnames Hdir k st1 es1 Hk Hv)
        as [Hn' Hd'].
      specialize (Hm (path_join s k) (dir ++ [k])%list t1 Hwm Hn' Hd').
      cbn beta iota in Hm. rewrite Hm. cbn [rbind].
      rewrite IHl by assumption. f_equal. cbn [list_sum fold_right].
      change (subdir_size (Dir st1 es1)) with (tree_size (Dir st1 es1)).
      rewrite <- Nat.add_assoc. reflexivity.
    + cbn [is_symlink negb]. rewrite andb_false_r. cbn.
      rewrite IHl by assumption. f_equal.
Qed.

(** A walk of a well-formed directory adds up the regular files below
    it. *)
Lemma sum_walk_node (h : Os.host) (d : node) : walk_sums h d.
Proof.
  induction d as [st | st es IHes | t] using node_induction;
    try exact (fun _ _ _ _ _ _ => I).
  intros s dir t Hwf Hnames Hdir. cbn [wf_node] in Hwf.
  apply andb_prop in Hwf as [Hwf Hsub]. apply andb_prop in Hwf as [Hvalid Hu].
  assert (Hent : forall k m, In (k, m) es ->
                 dict_get es k = Some m /\ valid_name k = true).
  { intros k m Hin. split; [now apply unique_names_get |].
    rewrite forallb_forall in Hvalid. apply Hvalid.
    apply in_map_iff. now exists (k, m). }
  cbn [walk_node sum_walk].
  rewrite (sum_filenames_entries h s dir st es Hnames Hdir es t Hent).
  cbn [rbind].
  rewrite (sum_walk_subdirs h s dir st es es Hnames Hdir _ IHes Hsub Hent).
  cbn [tree_size]. rewrite entries_size_parts. f_equal. lia.
Qed.

(** C9. On a path that names a regular file [get_source_size] returns
    the size of that file; on a path that names a directory it returns
    the sum of the sizes of the regular files below it, at any depth,
    symbolic links left out. *)
Theorem get_source_size_file_or_tree (env : environment) (s : string) :
  (forall p st, os_stat (host env) s = Some (p, File st) ->
     get_source_size env (Some s) = Ok (st_size st)) /\
  (forall p st es, os_stat (host env) s = Some (p, Dir st es) ->
     wf_node (Dir st es) = true ->
     get_source_size env (Some s) = Ok (tree_size (Dir st es))).
Proof.
  split.
  - intros p st Hst.
    unfold get_source_size, os_path_isfile, os_path_getsize, path_arg.
    cbn [rbind]. unfold isfile, getsize. rewrite Hst. reflexivity.
  - intros p st es Hst Hwf.
    unfold get_source_size, os_path_isfile, os_path_isdir, os_walk, path_arg.
    cbn [rbind]. unfold isfile, isdir, walk. rewrite Hst. cbn [rbind].
    pose proof (sum_walk_node (host env) (Dir st es) s p 0 Hwf
                  (names_dir_top _ _ _ _ _ Hst)
                  (os_stat_sound _ _ _ _ Hst)) as Hsum.
    cbn beta iota in Hsum. rewrite Hsum. reflexivity.
Qed.

Lemma get_source_size_file_or_tree_witness :
  get_source_size Fixtures.env_up (Some "/data/a.txt") = Ok 10 /\
  get_source_size Fixtures.env_up (Some "/data/lnk/../notes.md") = Ok 7 /\
  get_source_size Fixtures.env_up (Some "/data/") = Ok 30 /\
  get_source_size Fixtures.env_up (Some "/srv") = Ok 12.
Proof.
  split; [| split; [| split]].
  - apply (proj1 (get_source_size_file_or_tree Fixtures.env_up "/data/a.txt")
             ["data"; "a.txt"] (Fixtures.st 1000 10)).
    reflexivity.
  - apply (proj1 (get_source_size_file_or_tree Fixtures.env_up
                    "/data/lnk/../notes.md")
             ["srv"; "notes.md"] (Fixtures.st 1000 7)).
    reflexivity.
  - apply (proj2 (get_source_size_file_or_tree Fixtures.env_up "/data/")
             ["data"] (Fixtures.st 1000 4096)
             [ ("a.txt", File (Fixtures.st 1000 10));
               ("b.txt", File (Fixtures.st 1000 20));
               ("latest", Symlink "b.txt");
               ("lnk", Symlink "/srv/archive") ]).
    + reflexivity.
    + reflexivity.
  - apply (proj2 (get_source_size_file_or_tree Fixtures.env_up "/srv")
             ["srv"] (Fixtures.st 0 4096)
             [ ("archive", Fixtures.archive_dir);
               ("notes.md", File (Fixtures.st 1000 7));
               ("current", Symlink "archive");
               ("gone", Symlink "nowhere") ]).
    + reflexivity.
    + reflexivity.
Defined.

End FileSystem.

(* ================================================================= *)
(** ** Properties of the reports *)

Section Reporting.

(** The shape of the payload: the keys and the values that do not
    depend on the documents. *)
Lemma loader_doc_payload_shape (env : environment) (self : DaxaSafeLoader)
  (loading_end : bool) (p : dict) :
  loader_doc_payload env self loading_end = Ok p ->
  exists recs,
    doc_records env (map Document_dict (docs self)) = Ok recs /\
    p = [ ("name", PStr (app_name self));
          ("owner", PStr (owner self));
          ("docs", PList recs);
          ("plugin_version", PStr PLUGIN_VERSION);
          ("load_id", PStr (load_id self));
          ("loader_details", PDict (loader_details self));
          ("loading_end", PStr (if loading_end then "true" else "false"));
          ("file_owner", PStr (source_owner self)) ].
Proof.
  unfold loader_doc_payload.
  destruct (doc_records env (map Document_dict (docs self))) as [recs | e];
    cbn [rbind]; [| discriminate].
  intros H. exists recs. split; [reflexivity |].
  destruct loading_end; injection H as <-; reflexivity.
Qed.

(** Line 100 raises for every payload, before the [try] statement:
    [Doc] has no attribute [model_validate]. *)
Lemma send_payload_raises (env : environment) (payload : dict)
  (loading_end : bool) (w : world) :
  send_payload env payload loading_end w
  = (Raise (Exn AttributeError
              "type object 'Doc' has no attribute 'model_validate'" None),
     w).
Proof. reflexivity. Qed.

(** [_send_loader_doc] raises on every call and leaves the world as it
    found it: nothing is logged and nothing is sent. *)
Lemma send_loader_doc_raises (env : environment) (self : DaxaSafeLoader)
  (loading_end : bool) (w : world) :
  exists e, _send_loader_doc env self loading_end w = (Raise e, w).
Proof.
  unfold _send_loader_doc, bind, lift.
  destruct (loader_doc_payload env self loading_end) as [p | e].
  - rewrite send_payload_raises. eexists. reflexivity.
  - eexists. reflexivity.
Qed.

Lemma send_loader_doc_built (env : environment) (self : DaxaSafeLoader)
  (loading_end : bool) (w : world) (p : dict) :
  loader_doc_payload env self loading_end = Ok p ->
  _send_loader_doc env self loading_end w
  = (Raise (Exn AttributeError
              "type object 'Doc' has no attribute 'model_validate'" None),
     w).
Proof.
  intros H. unfold _send_loader_doc, bind, lift. rewrite H.
  apply send_payload_raises.
Qed.

Lemma new_posts_same (w : world) : new_posts w w = [].
Proof. unfold new_posts. apply skipn_all. Qed.

Lemma loader_doc_reports_same (env : environment) (w : world) :
  loader_doc_reports env w w = [].
Proof. unfold loader_doc_reports. now rewrite new_posts_same. Qed.

(** C5.  Whenever [_send_loader_doc] gets as far as building its
    payload, the payload has the key "file_owner" and no key
    "source_owner", which the [Doc] class declares.  Line 100 then
    raises [AttributeError], for this payload as for any other: it is
    outside the [try] statement, so the exception leaves
    [_send_loader_doc]; no call issues a loader/doc request. *)
Theorem send_loader_doc_never_posts (env : environment)
  (self : DaxaSafeLoader) (loading_end : bool) (w : world) :
  (forall p, loader_doc_payload env self loading_end = Ok p ->
     dict_mem p "file_owner" = true /\
     dict_mem p "source_owner" = false /\
     dict_mem Doc_fields "source_owner" = true /\
     _send_loader_doc env self loading_end w
     = (Raise (Exn AttributeError
                 "type object 'Doc' has no attribute 'model_validate'" None),
        w)) /\
  (forall payload,
     fst (send_payload env payload loading_end w)
     = Raise (Exn AttributeError
                "type object 'Doc' has no attribute 'model_validate'" None)) /\
  loader_doc_reports env w (snd (_send_loader_doc env self loading_end w))
  = [].
Proof.
  split; [| split].
  - intros p H.
    pose proof (send_loader_doc_built env self loading_end w p H) as Hrun.
    apply loader_doc_payload_shape in H as (recs & _ & ->).
    repeat split; try reflexivity. exact Hrun.
  - intros payload. now rewrite send_payload_raises.
  - destruct (send_loader_doc_raises env self loading_end w) as [e ->].
    apply loader_doc_reports_same.
Qed.

Lemma send_loader_doc_never_posts_witness :
  exists p,
    loader_doc_payload Fixtures.env_up
      (set_docs (Fixtures.wrapper_of Fixtures.csv_loader) [Fixtures.d1]) false
    = Ok p /\
    dict_mem p "file_owner" = true /\
    dict_mem p "source_owner" = false /\
    _send_loader_doc Fixtures.env_up
      (set_docs (Fixtures.wrapper_of Fixtures.csv_loader) [Fixtures.d1]) false
      initial_world
    = (Raise (Exn AttributeError
                "type object 'Doc' has no attribute 'model_validate'" None),
       initial_world).
Proof.
  eexists. split; [reflexivity |].
  pose proof (proj1 (send_loader_doc_never_posts Fixtures.env_up
    (set_docs (Fixtures.wrapper_of Fixtures.csv_loader) [Fixtures.d1])
    false initial_world) _ eq_refl) as (Hf & Hs & _ & He).
  exact (conj Hf (conj Hs He)).
Defined.

(** *** The [try] statement of [_send_loader_doc] *)

Lemma posts_app (a b : list event) :
  posts (a ++ b)%list = (posts a ++ posts b)%list.
Proof.
  induction a as [| [url body | lvl msg] a IHa]; simpl; congruence.
Qed.

Lemma new_posts_app (w w' : world) (l : list (string * dict)) :
  posts (events w') = (posts (events w) ++ l)%list -> new_posts w w' = l.
Proof.
  unfold new_posts. intros ->.
  rewrite skipn_app, skipn_all, Nat.sub_diag. reflexivity.
Qed.

(** The [try] statement of [_send_loader_doc] returns normally whatever
    the network does, and issues exactly the one request. *)
Lemma post_loader_doc_swallows (env : environment) (payload : dict)
  (w : world) :
  exists w',
    post_loader_doc env payload w = (Ok tt, w') /\
    posts (events w')
    = (posts (events w) ++ [(loader_doc_url env, payload)])%list /\
    discover_sent w' = discover_sent w /\ loader_sent w' = loader_sent w.
Proof.
  unfold post_loader_doc, try_except, bind, post, emit, log, emit, lift, ret.
  cbn [events].
  destruct (requests_post env _ _ payload) as [resp | e]; cbn.
  - destruct (negb (status_code resp =? HTTP_OK)%Z
              || negb (status_code resp =? HTTP_BAD_GATEWAY)%Z); cbn;
      destruct (json resp) as [j | e]; cbn;
      try destruct (subclass (exn_cls e) RequestException); cbn;
      eexists; (split; [reflexivity |]); cbn;
      rewrite <- ?app_assoc, !posts_app; cbn;
      rewrite ?app_nil_r; auto.
  - destruct (subclass (exn_cls e) RequestException); cbn;
      eexists; (split; [reflexivity |]); cbn;
      rewrite <- ?app_assoc, !posts_app; cbn;
      rewrite ?app_nil_r; auto.
Qed.

End Reporting.

(* ================================================================= *)
(** ** Properties of the wrapper *)

Section Wrapper.

Lemma doc_record_doc (env : environment) (d : Document) (r : pyval) :
  doc_record env (Document_dict d) = Ok r ->
  record_doc r = PStr (page_content d).
Proof.
  unfold doc_record.
  destruct (get_source_size env _) as [sz | e]; cbn [rbind]; [| discriminate].
  intros H. injection H as <-. reflexivity.
Qed.

(** The records of a payload carry the contents of the documents, one
    record for each document, in order. *)
Lemma doc_records_docs (env : environment) (ds : list Document) :
  forall recs,
    doc_records env (map Document_dict ds) = Ok recs ->
    map record_doc recs = map (fun d => PStr (page_content d)) ds.
Proof.
  induction ds as [| d ds IHds]; intros recs; cbn [map doc_records].
  - intros H. injection H as <-. reflexivity.
  - destruct (doc_record env (Document_dict d)) as [r | e] eqn:Er;
      cbn [rbind]; [| discriminate].
    destruct (doc_records env (map Document_dict ds)) as [rs | e];
      cbn [rbind]; [| discriminate].
    intros H. injection H as <-. cbn [map].
    rewrite (doc_record_doc env d r Er). f_equal. now apply IHds.
Qed.

(** C1.  When the eager load of the wrapped loader returns a list of
    documents, [load] does not return it: the call ends in an
    exception, with the state as it was, so that no report is issued.
    The payload of the terminal report is built from the documents
    just loaded: when that fails, [load] raises what the building
    raised; when it succeeds, the payload holds one record for each
    document, in order, and [loading_end] "true", and [load] raises the
    [AttributeError] of line 100. *)
Theorem load_raises_with_documents_loaded (env : environment)
  (self : DaxaSafeLoader) (w : world) (ds : list Document) :
  loader_load (loader self) = Ok ds ->
  (forall e, loader_doc_payload env (set_docs self ds) true = Raise e ->
     load env self w = (Raise e, w)) /\
  (forall p, loader_doc_payload env (set_docs self ds) true = Ok p ->
     load env self w
     = (Raise (Exn AttributeError
                 "type object 'Doc' has no attribute 'model_validate'" None),
        w) /\
     dict_get p "loading_end" = Some (PStr "true") /\
     exists recs,
       dict_get p "docs" = Some (PList recs) /\
       map record_doc recs = map (fun d => PStr (page_content d)) ds).
Proof.
  intros Hload. split.
  - intros e He. unfold load, bind, lift. rewrite Hload.
    unfold _send_loader_doc, bind, lift. now rewrite He.
  - intros p Hp. split.
    + unfold load, bind, lift. rewrite Hload.
      now rewrite (send_loader_doc_built env (set_docs self ds) true w p Hp).
    + apply loader_doc_payload_shape in Hp as (recs & Hrecs & ->).
      split; [reflexivity |]. exists recs. split; [reflexivity |].
      exact (doc_records_docs env ds recs Hrecs).
Qed.

Lemma load_raises_with_documents_loaded_witness :
  load Fixtures.env_up (Fixtures.wrapper_of Fixtures.csv_loader)
       initial_world
  = (Raise (Exn AttributeError
              "type object 'Doc' has no attribute 'model_validate'" None),
     initial_world) /\
  exists p recs,
    loader_doc_payload Fixtures.env_up
      (set_docs (Fixtures.wrapper_of Fixtures.csv_loader)
                [Fixtures.d1; Fixtures.d2]) true = Ok p /\
    dict_get p "docs" = Some (PList recs) /\
    map record_doc recs = [PStr "first"; PStr "second"].
Proof.
  destruct (load_raises_with_documents_loaded Fixtures.env_up
              (Fixtures.wrapper_of Fixtures.csv_loader) initial_world
              [Fixtures.d1; Fixtures.d2] eq_refl) as [_ H].
  destruct (H _ eq_refl) as (Hrun & _ & recs & Hdocs & Hmap).
  split; [exact Hrun |]. eexists. exists recs.
  split; [reflexivity |]. split; assumption.
Defined.

(** [load] never returns normally when the wrapped loader did. *)
Lemma load_never_returns (env : environment) (self : DaxaSafeLoader)
  (w : world) (ds : list Document) :
  loader_load (loader self) = Ok ds ->
  exists e, load env self w = (Raise e, w).
Proof.
  intros Hload. unfold load, bind, lift. rewrite Hload.
  destruct (send_loader_doc_raises env (set_docs self ds) true w) as [e ->].
  now exists e.
Qed.

(** No call of [next] on the generator of [lazy_load] yields a batch. *)
Lemma lazy_load_never_yields (env : environment) (self : DaxaSafeLoader)
  (gen : generator) (w w' : world)
  (r : DaxaSafeLoader * generator * option (list Document)) :
  lazy_load_next env self gen w = (Ok r, w') -> snd r = None.
Proof.
  assert (Hloop : forall it w0, exists e w1,
            lazy_load_loop env self it w0 = (Raise e, w1)).
  { intros [| d it] w0; unfold lazy_load_loop, bind.
    - destruct (send_loader_doc_raises env (set_docs self []) true w0)
        as [e ->]. now exists e, w0.
    - destruct (send_loader_doc_raises env (set_docs self [d]) false w0)
        as [e ->]. now exists e, w0. }
  destruct gen as [| it |]; cbn [lazy_load_next].
  - unfold bind at 1.
    destruct (try_except _ _ w) as [[it | e] w0]; [| discriminate].
    destruct (Hloop it w0) as (e & w1 & ->). discriminate.
  - destruct (Hloop it w) as (e & w1 & ->). discriminate.
  - unfold ret. intros H. injection H as <- _. reflexivity.
Qed.

(** C3 at a loader that yields two documents: the first [next] on the
    generator raises the [AttributeError] of line 100, before any batch
    is yielded and before any request is issued; a consumer asking for
    three batches gets the same exception. *)
Theorem lazy_load_raises_before_first_batch :
  lazy_load_next Fixtures.env_up (Fixtures.wrapper_of Fixtures.csv_loader)
                 Created initial_world
  = (Raise (Exn AttributeError
              "type object 'Doc' has no attribute 'model_validate'" None),
     initial_world) /\
  take_batches Fixtures.env_up 3 (Fixtures.wrapper_of Fixtures.csv_loader)
               Created initial_world
  = (Raise (Exn AttributeError
              "type object 'Doc' has no attribute 'model_validate'" None),
     initial_world).
Proof. split; reflexivity. Qed.

(** C4 at a loader that returns two documents: [load] raises the
    [AttributeError] of line 100 with the network down and with the
    network up alike, and so does the first [next] of [lazy_load]; the
    caller gets no document list. *)
Theorem load_raises_whatever_the_network :
  load Fixtures.env_down (Fixtures.wrapper_of Fixtures.csv_loader)
       initial_world
  = (Raise (Exn AttributeError
              "type object 'Doc' has no attribute 'model_validate'" None),
     initial_world) /\
  load Fixtures.env_up (Fixtures.wrapper_of Fixtures.csv_loader)
       initial_world
  = (Raise (Exn AttributeError
              "type object 'Doc' has no attribute 'model_validate'" None),
     initial_world) /\
  lazy_load_next Fixtures.env_down (Fixtures.wrapper_of Fixtures.csv_loader)
                 Created initial_world
  = (Raise (Exn AttributeError
              "type object 'Doc' has no attribute 'model_validate'" None),
     initial_world).
Proof. repeat split. Qed.

(** C6, amended.  When [lazy_load] of the wrapped loader raises
    [NotImplementedError], the first [next] on the generator of the
    wrapper logs and raises a [NotImplementedError] whose message is
    "DaxaSafeLoader does not implement lazy_load()": it names the class
    of the wrapper, the same for every wrapped loader, and carries the
    error of the wrapped loader as its cause. *)
Theorem lazy_load_unsupported (env : environment) (self : DaxaSafeLoader)
  (w : world) (exc : exn) :
  loader_lazy_load (loader self) = Raise exc ->
  exn_cls exc = NotImplementedError ->
  lazy_load_next env self Created w
  = (Raise (Exn NotImplementedError
                "DaxaSafeLoader does not implement lazy_load()" (Some exc)),
     snd (log ERROR "DaxaSafeLoader does not implement lazy_load()" w)).
Proof.
  intros Hlazy Hcls. cbn [lazy_load_next].
  unfold bind, try_except, lift. rewrite Hlazy, Hcls. reflexivity.
Qed.

Lemma lazy_load_unsupported_witness :
  exists w',
    lazy_load_next Fixtures.env_up
      (Fixtures.wrapper_of Fixtures.eager_loader) Created initial_world
    = (Raise (Exn NotImplementedError
                "DaxaSafeLoader does not implement lazy_load()"
                (Some (Exn NotImplementedError
                   "UnstructuredPDFLoader does not implement lazy_load()"
                   None))), w').
Proof.
  eexists.
  apply (lazy_load_unsupported Fixtures.env_up
           (Fixtures.wrapper_of Fixtures.eager_loader) initial_world);
    reflexivity.
Defined.

(** C6 as stated fails: the message does not name the class of the
    wrapped loader. *)
Lemma lazy_error_does_not_name_loader :
  ~ lazy_error_names_loader Fixtures.env_up
      (Fixtures.wrapper_of Fixtures.eager_loader) initial_world.
Proof.
  intros H. destruct (H _ eq_refl eq_refl) as (e & w' & Hrun & _ & Hmsg).
  injection Hrun as <- _. discriminate Hmsg.
Qed.

End Wrapper.

(* ================================================================= *)
(** ** Properties of construction and of the report body *)

Section Construction.


(** [__init__] refuses an [app_id] or an [owner] that is not a
    non-empty string, before it does anything else. *)
Lemma init_rejects_invalid_identity (env : environment) (l : Loader)
  (app_id owner : pyval) (description : string) (w : world) :
  truthy app_id && is_str app_id && (truthy owner && is_str owner) = false ->
  exists msg,
    __init__ env l app_id owner description w
    = (Raise (Exn NameError msg None), w).
Proof.
  intros H. unfold __init__.
  destruct (truthy app_id), (is_str app_id); cbn;
    try (eexists; reflexivity).
  destruct (truthy owner), (is_str owner); cbn;
    try (eexists; reflexivity).
  discriminate H.
Qed.

(** C2 at a loader of an in-memory data frame, with a valid [app_id]
    and [owner]: construction draws its identifier and then fails in
    [get_source_size], whose [size] is unbound for a source that is
    neither a file nor a directory; the exception is an
    [UnboundLocalError], which Python counts as a [NameError]. *)
Theorem init_fails_on_in_memory_source :
  __init__ Fixtures.env_up Fixtures.dataframe_loader
           (PStr "app") (PStr "me") "" initial_world
  = (Raise (Exn UnboundLocalError
              "local variable 'size' referenced before assignment" None),
     {| discover_sent := false; loader_sent := false;
        uuids_drawn := 1; events := [] |}) /\
  subclass UnboundLocalError NameError = true /\
  get_loader_type (loader_name_of Fixtures.dataframe_loader) = "in-memory" /\
  In (loader_name_of Fixtures.dataframe_loader) SUPPORTED_LOADERS.
Proof.
  repeat split. vm_compute. tauto.
Qed.



End Construction.

(* ================================================================= *)
(** ** Further properties of the utilities *)

Section MoreUtilities.

(** X1. [get_loader_type] answers "unknown" exactly for the names that
    are not among [SUPPORTED_LOADERS]. *)
Theorem get_loader_type_unknown_iff_unsupported (name : string) :
  get_loader_type name = "unknown" <-> ~ In name SUPPORTED_LOADERS.
Proof.
  unfold SUPPORTED_LOADERS, get_loader_type, LOADER_TYPE_MAPPING,
    get_loader_type_in.
  rewrite !in_app_iff, <- !str_in_In.
  destruct (str_in name file_loader), (str_in name dir_loader),
    (str_in name in_memory), (str_in name remote_db);
    split; intros H; try discriminate H; try reflexivity;
    try (intros [? | [? | [? | ?]]]; discriminate);
    exfalso; apply H; auto.
Qed.

Lemma get_loader_type_unknown_iff_unsupported_witness :
  get_loader_type "WebBaseLoader" = "unknown" /\
  In "PyPDFLoader" SUPPORTED_LOADERS.
Proof.
  split.
  - apply (proj2 (get_loader_type_unknown_iff_unsupported "WebBaseLoader")).
    apply str_in_not_In. reflexivity.
  - destruct (in_dec string_dec "PyPDFLoader" SUPPORTED_LOADERS) as [H | H];
      [exact H |].
    apply (proj2 (get_loader_type_unknown_iff_unsupported "PyPDFLoader")) in H.
    discriminate H.
Defined.

(** X2. The four tables share no name, so the order of the lookup
    never decides: a name listed under a category gets that category. *)
Theorem get_loader_type_of_listed_name (name ty : string)
  (loaders : list string) :
  In (ty, loaders) LOADER_TYPE_MAPPING -> In name loaders ->
  get_loader_type name = ty.
Proof.
  intros Hty Hname. cbn in Hty.
  destruct Hty as [H | [H | [H | [H | []]]]]; injection H as <- <-;
    cbn in Hname;
    repeat (destruct Hname as [<- | Hname]; [reflexivity |]);
    contradiction.
Qed.

Lemma get_loader_type_of_listed_name_witness :
  get_loader_type "GoogleDriveLoader" = "remote_db".
Proof.
  apply (get_loader_type_of_listed_name "GoogleDriveLoader" "remote_db"
           remote_db).
  - cbn. tauto.
  - cbn. tauto.
Defined.

(** X3. [get_full_path] is idempotent when [Path.resolve] returns
    absolute paths: a path that went through it once passes unchanged
    the second time. *)
Theorem get_full_path_idempotent (resolve : string -> string)
  (path : option string) :
  (forall q, starts_with_slash (resolve q) = true) ->
  get_full_path resolve (get_full_path resolve path)
  = get_full_path resolve path.
Proof.
  intros Habs. destruct path as [p |]; [| reflexivity].
  unfold get_full_path, get_full_path_str.
  destruct (passes_through p) eqn:E.
  - now rewrite E.
  - unfold passes_through at 1. rewrite Habs.
    now rewrite orb_true_r.
Qed.

Lemma lexical_resolve_absolute (cwd q : string) :
  starts_with_slash (lexical_resolve cwd q) = true.
Proof. reflexivity. Qed.

Lemma get_full_path_idempotent_witness :
  get_full_path (lexical_resolve "/srv/app")
    (get_full_path (lexical_resolve "/srv/app") (Some "rel/../f.txt"))
  = Some "/srv/app/f.txt".
Proof.
  rewrite (get_full_path_idempotent (lexical_resolve "/srv/app")
             (Some "rel/../f.txt") (lexical_resolve_absolute "/srv/app")).
  reflexivity.
Defined.

(** *** [get_loader_full_path] *)

Lemma contains_append (sub a b : string) :
  contains sub b = true -> contains sub (a ++ b) = true.
Proof.
  intros H. induction a as [| c a IH]; [exact H |].
  cbn [append contains]. rewrite IH. apply orb_true_r.
Qed.

(** A location with a scheme is returned as it is. *)
Lemma uri_passes_through (resolve : string -> string) (scheme rest : string) :
  get_full_path_str resolve (scheme ++ "://" ++ rest) = scheme ++ "://" ++ rest.
Proof.
  unfold get_full_path_str, passes_through.
  rewrite (contains_append "://" scheme ("://" ++ rest)).
  - rewrite orb_true_r. reflexivity.
  - cbn. now destruct rest.
Qed.

Ltac run_location :=
  unfold bind, lift, ret; cbn [rbind py_str];
  match goal with
  | |- (Ok (get_full_path_str ?r _), ?w) = _ =>
      first [ exact (f_equal (fun s => (Ok s, w))
                       (uri_passes_through r "gc" _))
            | exact (f_equal (fun s => (Ok s, w))
                       (uri_passes_through r "s3" _))
            | exact (f_equal (fun s => (Ok s, w))
                       (uri_passes_through r "notiondb" _))
            | reflexivity ]
  | |- _ => reflexivity
  end.

(** X4. A loader with a [bucket] attribute is located by its cloud
    URI, which is returned as it is: "gc://bucket/blob" for an instance
    of the library's [GCSFileLoader], "s3://bucket/key" for an instance
    of its [S3FileLoader]; any other loader with a [bucket] attribute
    gets the location "-", whatever its class is called and whatever
    other attributes it has. *)
Theorem bucket_loader_location (env : environment) (l : Loader)
  (b : pyval) (w : world) :
  isinstance l BaseLoader = true ->
  dict_get (loader_attrs l) "bucket" = Some b ->
  (forall blob,
     isinstance l GCSFileLoader = true ->
     dict_get (loader_attrs l) "blob" = Some blob ->
     get_loader_full_path env l w
     = (Ok ("gc://" ++ py_str b ++ "/" ++ py_str blob), w)) /\
  (forall key,
     isinstance l GCSFileLoader = false ->
     isinstance l S3FileLoader = true ->
     dict_get (loader_attrs l) "key" = Some key ->
     get_loader_full_path env l w
     = (Ok ("s3://" ++ py_str b ++ "/" ++ py_str key), w)) /\
  (isinstance l GCSFileLoader = false ->
   isinstance l S3FileLoader = false ->
   get_loader_full_path env l w = (Ok "-", w)).
Proof.
  intros Hbase Hb.
  unfold get_loader_full_path, loader_location, dict_mem, getattr.
  rewrite Hbase, Hb. cbn [negb].
  split; [| split].
  - intros blob Hg Hblob. rewrite Hg, Hblob. run_location.
  - intros key Hg Hs Hkey. rewrite Hg, Hs, Hkey. run_location.
  - intros Hg Hs. rewrite Hg, Hs. run_location.
Qed.

Lemma bucket_loader_location_witness :
  get_loader_full_path Fixtures.env_up Samples.gcs_loader initial_world
  = (Ok "gc://corpus/a.txt", initial_world) /\
  get_loader_full_path Fixtures.env_up Samples.gcs_namesake initial_world
  = (Ok "-", initial_world) /\
  get_loader_full_path Fixtures.env_up Samples.s3_directory_loader
    initial_world = (Ok "-", initial_world).
Proof.
  split; [| split].
  - apply (proj1 (bucket_loader_location Fixtures.env_up Samples.gcs_loader
                    (PStr "corpus") initial_world eq_refl eq_refl)
             (PStr "a.txt")); reflexivity.
  - apply (proj2 (proj2 (bucket_loader_location Fixtures.env_up
                           Samples.gcs_namesake (PStr "corpus")
                           initial_world eq_refl eq_refl))); reflexivity.
  - apply (proj2 (proj2 (bucket_loader_location Fixtures.env_up
                           Samples.s3_directory_loader (PStr "corpus")
                           initial_world eq_refl eq_refl))); reflexivity.
Defined.

(** X5. A value that is no instance of [BaseLoader] is located at "-",
    with one error record in the log; and among the loaders without
    one of the attributes [bucket], [source], [path], [file_path],
    [web_paths], an instance of the library's [DataFrameLoader] is
    located at "in-memory", an instance of its [NotionDBLoader] at the
    URI of its database, and every other at "-". *)
Theorem loader_location_fallbacks (env : environment) (l : Loader)
  (w : world) :
  (isinstance l BaseLoader = false ->
   get_loader_full_path env l w
   = (Ok "-",
      snd (log ERROR
             "loader is not derived from BaseLoader, source location will be unknown!"
             w))) /\
  (isinstance l BaseLoader = true ->
   dict_mem (loader_attrs l) "bucket" = false ->
   dict_mem (loader_attrs l) "source" = false ->
   dict_mem (loader_attrs l) "path" = false ->
   dict_mem (loader_attrs l) "file_path" = false ->
   dict_mem (loader_attrs l) "web_paths" = false ->
   (isinstance l DataFrameLoader = true ->
    get_loader_full_path env l w = (Ok "in-memory", w)) /\
   (forall id,
      isinstance l DataFrameLoader = false ->
      isinstance l NotionDBLoader = true ->
      dict_get (loader_attrs l) "database_id" = Some id ->
      get_loader_full_path env l w = (Ok ("notiondb://" ++ py_str id), w)) /\
   (isinstance l DataFrameLoader = false ->
    isinstance l NotionDBLoader = false ->
    get_loader_full_path env l w = (Ok "-", w))).
Proof.
  split.
  - intros Hbase. unfold get_loader_full_path. rewrite Hbase. run_location.
  - intros Hbase H1 H2 H3 H4 H5.
    unfold get_loader_full_path, loader_location, getattr.
    rewrite Hbase, H1, H2, H3, H4, H5. cbn [negb].
    split; [| split].
    + intros Hd. rewrite Hd. run_location.
    + intros id Hd Hn Hid. rewrite Hd, Hn, Hid. run_location.
    + intros Hd Hn. rewrite Hd, Hn. run_location.
Qed.

Lemma loader_location_fallbacks_witness :
  get_loader_full_path Fixtures.env_up Fixtures.dataframe_loader
    initial_world = (Ok "in-memory", initial_world) /\
  get_loader_full_path Fixtures.env_up
    (Samples.base_loader "app.loaders" "DataFrameLoader" [])
    initial_world = (Ok "-", initial_world).
Proof.
  split.
  - apply (proj2 (loader_location_fallbacks Fixtures.env_up
                    Fixtures.dataframe_loader initial_world));
      reflexivity.
  - apply (proj2 (loader_location_fallbacks Fixtures.env_up
                    (Samples.base_loader "app.loaders" "DataFrameLoader" [])
                    initial_world)); reflexivity.
Defined.

End MoreUtilities.

(* ================================================================= *)
(** ** Further properties of the file-system helpers *)

Section MoreFileSystem.

(** *** [get_file_owner_from_path] *)

(** X6. [get_file_owner_from_path] gives a name other than "unknown"
    exactly when its argument is a path string on which [os.stat]
    succeeds and the user database has an entry for the owner it
    reports; in every other case ([None], a path that does not
    resolve, an owner without an entry) the answer is "unknown". *)
Theorem file_owner_known_iff (env : environment) (file_path : option string)
  (name : string) :
  name <> "unknown" ->
  (get_file_owner_from_path env file_path = name <->
   exists s uid,
     file_path = Some s /\
     stat_uid (host env) s = Ok uid /\
     getpwuid (passwd (host env)) uid = Ok name).
Proof.
  intros Hname.
  unfold get_file_owner_from_path, os_stat_uid, path_arg.
  destruct file_path as [s |]; cbn [rbind].
  - destruct (stat_uid (host env) s) as [uid | e] eqn:Hu; cbn [rbind].
    + destruct (getpwuid (passwd (host env)) uid) as [n | e] eqn:Hn.
      * split.
        -- intros <-. exists s, uid. auto.
        -- intros (s' & uid' & Hs & Hu' & Hn').
           injection Hs as <-. rewrite Hu in Hu'. injection Hu' as <-.
           congruence.
      * split.
        -- intros H. now contradiction Hname.
        -- intros (s' & uid' & Hs & Hu' & Hn').
           injection Hs as <-. rewrite Hu in Hu'. injection Hu' as <-.
           congruence.
    + split.
      * intros H. now contradiction Hname.
      * intros (s' & uid' & Hs & Hu' & Hn').
        injection Hs as <-. congruence.
  - split.
    + intros H. now contradiction Hname.
    + intros (s' & uid' & Hs & _). discriminate.
Qed.

Lemma file_owner_known_iff_witness :
  get_file_owner_from_path Fixtures.env_up (Some "/data/a.txt") = "alice" /\
  get_file_owner_from_path Fixtures.env_up (Some "/data/a.txt/") = "unknown".
Proof.
  split.
  - apply (proj2 (file_owner_known_iff Fixtures.env_up (Some "/data/a.txt")
                    "alice" ltac:(discriminate))).
    exists "/data/a.txt", 1000. repeat split.
  - destruct (string_dec
                (get_file_owner_from_path Fixtures.env_up
                   (Some "/data/a.txt/")) "unknown") as [H | H];
      [exact H |].
    destruct (proj1 (file_owner_known_iff Fixtures.env_up
                       (Some "/data/a.txt/") _ H) eq_refl)
      as (s & uid & Hs & Hu & _).
    injection Hs as <-. discriminate Hu.
Defined.

(** *** [get_source_size] *)

(** The loops of [get_source_size] raise nothing but the error of
    [os.path.getsize]. *)
Lemma sum_filenames_raises (h : Os.host) (dp : string) (l : list string) :
  forall t e, sum_filenames h dp l t = Raise e -> e = os_error.
Proof.
  induction l as [| f l IHl]; intros t e; simpl; [discriminate |].
  destruct (negb (islink h (path_join dp f))).
  - unfold getsize.
    destruct (os_stat h (path_join dp f)) as [[p [st | st es | t0]] |];
      cbn [rbind]; try apply IHl; intros H; now injection H as <-.
  - apply IHl.
Qed.

Lemma sum_walk_raises (h : Os.host)
  (triples : list (string * list string * list string)) :
  forall t e, sum_walk h triples t = Raise e -> e = os_error.
Proof.
  induction triples as [| [[dp dn] fn] triples IH]; intros t e; simpl;
    [discriminate |].
  destruct (sum_filenames h dp fn t) as [t' | e'] eqn:E; cbn [rbind].
  - apply IH.
  - intros H. injection H as <-. exact (sum_filenames_raises _ _ _ _ _ E).
Qed.

(** Without a file or a directory at the path the local [size] is
    unbound. *)
Lemma get_source_size_missing (env : environment) (s : string) :
  isfile (host env) s = false -> isdir (host env) s = false ->
  get_source_size env (Some s) = Raise (unbound_size env).
Proof.
  intros Hf Hd.
  unfold get_source_size, os_path_isfile, os_path_isdir, path_arg.
  cbn [rbind]. now rewrite Hf, Hd.
Qed.

(** X7. [get_source_size] has no branch for a path that is neither a
    file nor a directory: on a path string it raises the
    [UnboundLocalError] of its local [size] exactly when both
    [os.path.isfile] and [os.path.isdir] are false of the path; on
    [None] it raises the [TypeError] of [os.path.isfile]. *)
Theorem get_source_size_unbound_iff (env : environment) (s : string) :
  (get_source_size env (Some s) = Raise (unbound_size env) <->
   isfile (host env) s = false /\ isdir (host env) s = false) /\
  exists msg, get_source_size env None = Raise (Exn TypeError msg None).
Proof.
  split; [| eexists; reflexivity].
  split; [| intros [Hf Hd]; now apply get_source_size_missing].
  unfold get_source_size, os_path_isfile, os_path_isdir, os_path_getsize,
    os_walk, path_arg.
  cbn [rbind].
  destruct (isfile (host env) s) eqn:Hf.
  - unfold getsize.
    destruct (os_stat (host env) s) as [[p [st | st es | t]] |];
      discriminate.
  - destruct (isdir (host env) s) eqn:Hd; [| auto].
    cbn [rbind].
    destruct (sum_walk _ _ 0) as [n | e] eqn:E; cbn [rbind];
      [discriminate |].
    apply sum_walk_raises in E. subst e. discriminate.
Qed.

Lemma get_source_size_unbound_iff_witness :
  get_source_size Fixtures.env_up (Some "s3://corpus/a.txt")
  = Raise (unbound_size Fixtures.env_up) /\
  get_source_size Fixtures.env_up (Some "/data/a.txt/")
  = Raise (unbound_size Fixtures.env_up) /\
  get_source_size Fixtures.env_up (Some "/data/missing/../a.txt")
  = Raise (unbound_size Fixtures.env_up).
Proof.
  split; [| split].
  - apply (proj2 (proj1 (get_source_size_unbound_iff Fixtures.env_up
                           "s3://corpus/a.txt"))).
    split; reflexivity.
  - apply (proj2 (proj1 (get_source_size_unbound_iff Fixtures.env_up
                           "/data/a.txt/"))).
    split; reflexivity.
  - apply (proj2 (proj1 (get_source_size_unbound_iff Fixtures.env_up
                           "/data/missing/../a.txt"))).
    split; reflexivity.
Defined.

(** [get_source_size] returns a size only for a path that is a file or
    a directory. *)
Lemma get_source_size_ok (env : environment) (fp : option string) (n : nat) :
  get_source_size env fp = Ok n ->
  exists s,
    fp = Some s /\
    (isfile (host env) s = true \/ isdir (host env) s = true).
Proof.
  destruct fp as [s |]; [| discriminate].
  intros H. exists s. split; [reflexivity |].
  destruct (isfile (host env) s) eqn:Hf; [now left |].
  destruct (isdir (host env) s) eqn:Hd; [now right |].
  rewrite (get_source_size_missing env s Hf Hd) in H. discriminate.
Qed.

(** *** The records of [_send_loader_doc] *)

Lemma dict_get_map_values {V W : Type} (f : V -> W) (d : list (string * V))
  (k : string) :
  dict_get (map (fun kv => (fst kv, f (snd kv))) d) k
  = option_map f (dict_get d k).
Proof.
  induction d as [| [k' v] d IHd]; simpl; [reflexivity |].
  destruct (String.eqb k k'); [reflexivity | exact IHd].
Qed.

(** A record is built only for a document whose [source] names a file
    or a directory of the host. *)
Lemma doc_record_ok (env : environment) (d : Document) (r : pyval) :
  doc_record env (Document_dict d) = Ok r ->
  exists s,
    dict_get (metadata d) "source" = Some (Some s) /\
    (isfile (host env) (get_full_path_str (Path_resolve env) s) = true \/
     isdir (host env) (get_full_path_str (Path_resolve env) s) = true).
Proof.
  unfold doc_record. cbn [Document_dict dict_get String.eqb Ascii.eqb
                            Bool.eqb].
  unfold get_or_none at 1. rewrite dict_get_map_values.
  destruct (get_source_size env _) as [n | e] eqn:E; cbn [rbind];
    [| discriminate].
  intros _. apply get_source_size_ok in E as (s' & Hs & Hex).
  destruct (dict_get (metadata d) "source") as [[s |] |];
    cbn in Hs; try discriminate.
  injection Hs as <-. now exists s.
Qed.

(** X8. [_send_loader_doc] gets as far as its payload only when every
    document has a [source] in its metadata that, once through
    [get_full_path], is a file or a directory for [os.path]: a
    document without a source, or with the source of a remote or
    in-memory loader, ends the report with an exception. *)
Theorem payload_needs_local_sources (env : environment)
  (self : DaxaSafeLoader) (loading_end : bool) (p : dict) :
  loader_doc_payload env self loading_end = Ok p ->
  Forall (fun d =>
            exists s,
              dict_get (metadata d) "source" = Some (Some s) /\
              (isfile (host env) (get_full_path_str (Path_resolve env) s)
               = true \/
               isdir (host env) (get_full_path_str (Path_resolve env) s)
               = true))
         (docs self).
Proof.
  unfold loader_doc_payload.
  destruct (doc_records env (map Document_dict (docs self))) as [recs | e]
    eqn:E; cbn [rbind]; [| discriminate].
  intros _. revert recs E.
  induction (docs self) as [| d ds IHds]; intros recs; cbn [map doc_records].
  - constructor.
  - destruct (doc_record env (Document_dict d)) as [r | e] eqn:Er;
      cbn [rbind]; [| discriminate].
    destruct (doc_records env (map Document_dict ds)) as [rs | e];
      cbn [rbind]; [| discriminate].
    intros _. constructor.
    + exact (doc_record_ok env d r Er).
    + exact (IHds rs eq_refl).
Qed.

Lemma payload_needs_local_sources_witness :
  Forall (fun d =>
            exists s,
              dict_get (metadata d) "source" = Some (Some s) /\
              (isfile (host Fixtures.env_up)
                 (get_full_path_str (Path_resolve Fixtures.env_up) s) = true \/
               isdir (host Fixtures.env_up)
                 (get_full_path_str (Path_resolve Fixtures.env_up) s) = true))
         [Fixtures.d1; Fixtures.d2].
Proof.
  exact (payload_needs_local_sources Fixtures.env_up
           (set_docs (Fixtures.wrapper_of Fixtures.csv_loader)
                     [Fixtures.d1; Fixtures.d2]) true _ eq_refl).
Defined.

End MoreFileSystem.

(* ================================================================= *)
(** ** Further properties of the reports *)

Section MoreReporting.

(** X10. The [try] statement of [_send_loader_doc] never raises and
    issues exactly one request, to loader/doc; and whenever the request
    is answered, with whatever status, 200 included, the first record
    it logs is "Received unexpected HTTP response code": the test
    [status != 200 or status != 502] holds for every status. *)
Theorem post_loader_doc_always_unexpected (env : environment)
  (payload : dict) (w : world) (resp : Response) :
  requests_post env (List.length (posts (events w))) (loader_doc_url env)
                payload = Ok resp ->
  exists rest,
    fst (post_loader_doc env payload w) = Ok tt /\
    events (snd (post_loader_doc env payload w))
    = (events w
       ++ HttpPost (loader_doc_url env) payload
       :: Log DEBUG "Received unexpected HTTP response code" :: rest)%list /\
    posts rest = [].
Proof.
  intros Hresp.
  unfold post_loader_doc, try_except, bind, post, emit, log, emit, lift, ret.
  cbn [events]. rewrite Hresp. cbn.
  assert (Hs : negb (status_code resp =? HTTP_OK)%Z
               || negb (status_code resp =? HTTP_BAD_GATEWAY)%Z = true).
  { unfold HTTP_OK, HTTP_BAD_GATEWAY.
    destruct (Z.eqb_spec (status_code resp) 200) as [-> |]; reflexivity. }
  rewrite Hs. cbn.
  destruct (json resp) as [j | e]; cbn;
    [| destruct (subclass (exn_cls e) RequestException); cbn];
    eexists; (split; [reflexivity |]);
    rewrite <- !app_assoc; cbn; (split; [reflexivity |]); reflexivity.
Qed.

Lemma post_loader_doc_always_unexpected_witness :
  exists rest,
    fst (post_loader_doc Fixtures.env_up Fixtures.schema_valid_payload
           initial_world) = Ok tt /\
    events (snd (post_loader_doc Fixtures.env_up
                   Fixtures.schema_valid_payload initial_world))
    = (HttpPost (loader_doc_url Fixtures.env_up) Fixtures.schema_valid_payload
       :: Log DEBUG "Received unexpected HTTP response code" :: rest)%list /\
    posts rest = [].
Proof.
  exact (post_loader_doc_always_unexpected Fixtures.env_up
           Fixtures.schema_valid_payload initial_world Fixtures.ok_response
           eq_refl).
Defined.

End MoreReporting.

(* ================================================================= *)
(** ** Further properties of [load] and [lazy_load] *)

Section MoreWrapper.

(** X11. [load] never returns: when the wrapped loader raises, [load]
    raises the same exception; when it returns, [load] raises out of
    the report, the [AttributeError] of line 100 if the payload could
    be built.  In every case the state is left as it was found: no
    request, no log record, no flag. *)
Theorem load_always_raises (env : environment) (self : DaxaSafeLoader)
  (w : world) :
  (forall e0, loader_load (loader self) = Raise e0 ->
              load env self w = (Raise e0, w)) /\
  (forall ds, loader_load (loader self) = Ok ds ->
     exists e,
       load env self w = (Raise e, w) /\
       (forall p, loader_doc_payload env (set_docs self ds) true = Ok p ->
          e = Exn AttributeError
                "type object 'Doc' has no attribute 'model_validate'" None)).
Proof.
  split.
  - intros e0 H. unfold load, bind, lift. now rewrite H.
  - intros ds H. unfold load, bind, lift. rewrite H.
    destruct (loader_doc_payload env (set_docs self ds) true) as [p | e1]
      eqn:E.
    + rewrite (send_loader_doc_built env (set_docs self ds) true w p E).
      eexists. split; reflexivity.
    + unfold _send_loader_doc, bind, lift. rewrite E.
      eexists. split; [reflexivity |]. intros p Hp. discriminate.
Qed.

Lemma load_always_raises_witness :
  load Fixtures.env_up (Fixtures.wrapper_of Fixtures.eager_loader)
       initial_world
  = (Raise (Exn AttributeError
              "type object 'Doc' has no attribute 'model_validate'" None),
     initial_world).
Proof.
  destruct (proj2 (load_always_raises Fixtures.env_up
                     (Fixtures.wrapper_of Fixtures.eager_loader)
                     initial_world) _ eq_refl)
    as (e & Hrun & He).
  rewrite (He _ eq_refl) in Hrun. exact Hrun.
Defined.

(** A document without a source stops the report with the [TypeError]
    of [os.path.isfile(None)]. *)
Lemma doc_record_no_source (env : environment) (d : Document) :
  dict_get (metadata d) "source" = None \/
  dict_get (metadata d) "source" = Some None ->
  exists msg,
    doc_record env (Document_dict d) = Raise (Exn TypeError msg None).
Proof.
  intros H. unfold doc_record.
  cbn [Document_dict dict_get String.eqb Ascii.eqb Bool.eqb].
  unfold get_or_none at 1. rewrite dict_get_map_values.
  destruct H as [-> | ->]; eexists; reflexivity.
Qed.

(** X12. When the first document that the wrapped loader returns has
    no [source] in its metadata, [load] raises the [TypeError] of
    [os.path.isfile(None)]: the report fails in [get_source_size]
    before its payload is built. *)
Theorem load_needs_document_source (env : environment)
  (self : DaxaSafeLoader) (w : world) (d : Document) (ds : list Document) :
  loader_load (loader self) = Ok (d :: ds) ->
  dict_get (metadata d) "source" = None \/
  dict_get (metadata d) "source" = Some None ->
  exists msg, load env self w = (Raise (Exn TypeError msg None), w).
Proof.
  intros Hload Hsrc.
  destruct (doc_record_no_source env d Hsrc) as [msg Hrec].
  exists msg. unfold load, bind, lift. rewrite Hload.
  unfold _send_loader_doc, bind, lift, loader_doc_payload.
  cbn [docs set_docs map doc_records]. rewrite Hrec. reflexivity.
Qed.

Lemma load_needs_document_source_witness :
  exists msg,
    load Fixtures.env_up (Fixtures.wrapper_of Samples.bare_loader)
         initial_world = (Raise (Exn TypeError msg None), initial_world).
Proof.
  apply (load_needs_document_source Fixtures.env_up
           (Fixtures.wrapper_of Samples.bare_loader) initial_world
           Samples.bare_doc []).
  - reflexivity.
  - left. reflexivity.
Defined.

(** The loop of [lazy_load] ends in an exception and changes nothing. *)
Lemma lazy_load_loop_raises (env : environment) (self : DaxaSafeLoader)
  (it : list Document) (w : world) :
  exists e, lazy_load_loop env self it w = (Raise e, w).
Proof.
  destruct it as [| d it]; unfold lazy_load_loop, bind.
  - destruct (send_loader_doc_raises env (set_docs self []) true w)
      as [e ->]. now exists e.
  - destruct (send_loader_doc_raises env (set_docs self [d]) false w)
      as [e ->]. now exists e.
Qed.

(** What one [next] on the generator can do: return without a batch
    when the generator is finished, and raise otherwise; it sends
    nothing and sets no flag. *)
Lemma lazy_load_next_effects (env : environment) (self : DaxaSafeLoader)
  (gen : generator) (w w' : world)
  (r : result (DaxaSafeLoader * generator * option (list Document))) :
  lazy_load_next env self gen w = (r, w') ->
  (gen = Finished \/ exists e, r = Raise e)
  /\ posts (events w') = posts (events w)
  /\ loader_sent w' = loader_sent w
  /\ discover_sent w' = discover_sent w.
Proof.
  destruct gen as [| it |]; cbn [lazy_load_next].
  - unfold bind at 1, try_except, lift.
    destruct (loader_lazy_load (loader self)) as [it | exc].
    + destruct (lazy_load_loop_raises env self it w) as [e ->].
      intros H. injection H as <- <-.
      split; [right; now exists e | auto].
    + destruct (subclass (exn_cls exc) NotImplementedError).
      * unfold bind, log, emit, raise. cbn.
        intros H. injection H as <- <-. cbn.
        split; [right; eexists; reflexivity |].
        rewrite posts_app. cbn. rewrite app_nil_r. auto.
      * unfold raise. intros H. injection H as <- <-.
        split; [right; eexists; reflexivity | auto].
  - destruct (lazy_load_loop_raises env self it w) as [e ->].
    intros H. injection H as <- <-.
    split; [right; now exists e | auto].
  - unfold ret. intros H. injection H as <- <-. auto.
Qed.

(** X13. A consumer of [lazy_load] never receives a batch: asking for
    any number of batches, from a generator in any state, gives an
    exception or the empty list, and the run sends no request and sets
    no flag. *)
Theorem lazy_load_gives_no_batch (env : environment) (n : nat)
  (self : DaxaSafeLoader) (gen : generator) (w : world) :
  (forall bs, fst (take_batches env n self gen w) = Ok bs -> bs = []) /\
  (gen <> Finished -> 0 < n ->
   exists e, fst (take_batches env n self gen w) = Raise e) /\
  posts (events (snd (take_batches env n self gen w))) = posts (events w) /\
  loader_sent (snd (take_batches env n self gen w)) = loader_sent w /\
  discover_sent (snd (take_batches env n self gen w)) = discover_sent w.
Proof.
  destruct n as [| n].
  - cbn. repeat split; auto.
    + intros bs H. now injection H as <-.
    + intros _ H. inversion H.
  - cbn [take_batches]. unfold bind.
    destruct (lazy_load_next env self gen w) as [[r | e] w1] eqn:E;
      destruct (lazy_load_next_effects env self gen w _ _ E)
        as (Hr & Hp & Hl & Hd).
    + destruct Hr as [-> | [e He]]; [| discriminate].
      cbn in E. unfold ret in E. injection E as <- <-.
      cbn. repeat split; auto.
      * intros bs H. now injection H as <-.
      * intros H. now contradiction H.
    + cbn. repeat split; auto.
      * intros bs H. discriminate.
      * intros _ _. now exists e.
Qed.

Lemma lazy_load_gives_no_batch_witness :
  exists e,
    fst (take_batches Fixtures.env_up 2
           (Fixtures.wrapper_of Fixtures.csv_loader) Created initial_world)
    = Raise e.
Proof.
  apply (proj1 (proj2 (lazy_load_gives_no_batch Fixtures.env_up 2
                         (Fixtures.wrapper_of Fixtures.csv_loader) Created
                         initial_world))).
  - discriminate.
  - apply Nat.lt_0_succ.
Defined.

End MoreWrapper.

(* ================================================================= *)
(** ** Further properties of construction *)

Section MoreConstruction.

(** *** The name of the loader class *)

(** X14. The expression that [__init__] uses to name the class of the
    wrapped loader gives the qualified name of the class, for every
    module other than [builtins], when that name holds no dot and no
    quote; for a class of [builtins], whose [repr] has no module, it
    gives "<class ". *)
Theorem loader_name_is_class_name (l : Loader) :
  ~ In "."%char (list_ascii_of_string (loader_qualname l)) ->
  (loader_module l <> "builtins" ->
   ~ In "'"%char (list_ascii_of_string (loader_qualname l)) ->
   loader_name_of l = loader_qualname l) /\
  (loader_module l = "builtins" -> loader_name_of l = "<class ").
Proof.
  intros Hdot. unfold loader_name_of, type_str. split.
  - intros Hmod Hquote. apply String.eqb_neq in Hmod. rewrite Hmod.
    change ("<class '" ++ loader_module l ++ "." ++ loader_qualname l ++ "'>")
      with ("<class '" ++ loader_module l
            ++ String "." (loader_qualname l ++ "'>")).
    rewrite <- append_assoc, split_on_app.
    rewrite last_app_nonempty by apply split_on_nonempty.
    rewrite (split_on_absent "." (loader_qualname l ++ "'>")).
    + cbn [last].
      change (loader_qualname l ++ "'>")
        with (loader_qualname l ++ String "'" ">").
      rewrite split_on_app, (split_on_absent "'" (loader_qualname l))
        by assumption.
      reflexivity.
    + intros Hin. apply in_append in Hin as [Hin | Hin]; [now apply Hdot |].
      cbn in Hin. destruct Hin as [H | [H | []]]; discriminate.
  - intros Hmod. apply String.eqb_eq in Hmod. rewrite Hmod.
    rewrite (split_on_absent "." ("<class '" ++ loader_qualname l ++ "'>")).
    + reflexivity.
    + intros Hin. cbn [append list_ascii_of_string In] in Hin.
      repeat (destruct Hin as [H | Hin]; [discriminate H |]).
      apply in_append in Hin as [Hin | Hin]; [now apply Hdot |].
      cbn in Hin. destruct Hin as [H | [H | []]]; discriminate.
Qed.

Lemma loader_name_is_class_name_witness :
  loader_name_of Fixtures.csv_loader = "CSVLoader" /\
  loader_name_of Samples.plain_object = "<class ".
Proof.
  split.
  - apply (proj1 (loader_name_is_class_name Fixtures.csv_loader
                    ltac:(cbn; intros H;
                          repeat (destruct H as [H | H]; [discriminate |]);
                          exact H))).
    + discriminate.
    + cbn. intros H. repeat (destruct H as [H | H]; [discriminate |]).
      exact H.
  - apply (proj2 (loader_name_is_class_name Samples.plain_object
                    ltac:(cbn; intros H;
                          repeat (destruct H as [H | H]; [discriminate |]);
                          exact H))).
    reflexivity.
Defined.

(** *** [get_runtime] *)

Lemma same_but_logs_refl (w : world) : same_but_logs w w.
Proof. repeat split. Qed.

Lemma same_but_logs_log (level : log_level) (msg : string) (w : world) :
  same_but_logs w (snd (log level msg w)).
Proof.
  unfold same_but_logs, log, emit. cbn. rewrite posts_app. cbn.
  rewrite app_nil_r. auto.
Qed.

Lemma same_but_logs_trans (w1 w2 w3 : world) :
  same_but_logs w1 w2 -> same_but_logs w2 w3 -> same_but_logs w1 w3.
Proof.
  unfold same_but_logs. intros (A1 & A2 & A3 & A4) (B1 & B2 & B3 & B4).
  repeat split; congruence.
Qed.

Lemma get_loader_full_path_effects (env : environment) (l : Loader)
  (w w' : world) (r : result string) :
  get_loader_full_path env l w = (r, w') ->
  r = location_of env l /\ same_but_logs w w'.
Proof.
  unfold location_of, get_loader_full_path.
  destruct (negb (isinstance l BaseLoader)).
  - unfold bind, ret. cbn [log emit]. intros H. injection H as <- <-.
    split; [reflexivity |]. apply (same_but_logs_log ERROR).
  - unfold bind, lift, ret.
    destruct (loader_location l) as [loc | e]; intros H; injection H as <- <-;
      (split; [reflexivity | apply same_but_logs_refl]).
Qed.

Lemma get_runtime_effects (env : environment) (w w' : world)
  (r : result (dict * dict)) :
  get_runtime env w = (r, w') ->
  r = runtime_of env /\ same_but_logs w w'.
Proof.
  unfold runtime_of, get_runtime, bind, lift, ret.
  destruct (Framework "langchain" _) as [fr | e];
    [| intros H; injection H as <- <-;
       split; [reflexivity | apply same_but_logs_refl]].
  destruct (environ_PWD env) as [pwd |];
    [| intros H; injection H as <- <-;
       split; [reflexivity | apply same_but_logs_refl]].
  destruct (contains "Darwin" (uname_system env)).
  - unfold bind, lift, ret. cbn [log emit fst snd].
    destruct (get_local_runtime env "local") as [lr | e];
      intros H; injection H as <- <-;
      (split; [reflexivity | apply (same_but_logs_log DEBUG)]).
  - unfold bind, lift, ret.
    destruct (get_local_runtime env "local") as [lr | e].
    + cbn [log emit fst snd]. intros H. injection H as <- <-.
      split; [reflexivity |].
      eapply same_but_logs_trans; [apply (same_but_logs_log DEBUG "runtime") |].
      apply (same_but_logs_log DEBUG "framework").
    + intros H; injection H as <- <-.
      split; [reflexivity | apply same_but_logs_refl].
Qed.

(** X15. [get_runtime] needs the version of the library and the
    variable [PWD]: without the first the [Framework] model is refused,
    without the second [os.environ] raises [KeyError].  With both, and
    an address for the host, the runtime has the path of [PWD], the
    host name of [uname], the address found by [get_local_runtime], the
    runtime "local", and the type "desktop" when the system name
    contains "Darwin" and "local" otherwise. *)
Theorem get_runtime_outcomes (env : environment) (w : world) :
  (dict_get (runtime_environment env) "library_version" = None ->
   exists msg,
     get_runtime env w = (Raise (Exn ValidationError msg None), w)) /\
  (forall v,
     dict_get (runtime_environment env) "library_version" = Some v ->
     environ_PWD env = None ->
     get_runtime env w = (Raise (Exn KeyError "'PWD'" None), w)) /\
  (forall v pwd lr,
     dict_get (runtime_environment env) "library_version" = Some v ->
     environ_PWD env = Some pwd ->
     get_local_runtime env "local" = Ok lr ->
     exists fr rt w',
       get_runtime env w = (Ok (fr, rt), w') /\
       fr = [ ("name", PStr "langchain"); ("version", PStr v) ] /\
       dict_get rt "path" = Some (PStr pwd) /\
       dict_get rt "host" = Some (PStr (uname_node env)) /\
       dict_get rt "type"
       = Some (PStr (if contains "Darwin" (uname_system env)
                     then "desktop" else "local")) /\
       dict_get rt "ip" = dict_get lr "ip" /\
       dict_get rt "runtime" = Some (PStr "local")).
Proof.
  split; [| split].
  - intros Hv. unfold get_runtime, bind, lift. rewrite Hv.
    eexists. reflexivity.
  - intros v Hv Hpwd. unfold get_runtime, bind, lift. rewrite Hv, Hpwd.
    reflexivity.
  - intros v pwd lr Hv Hpwd Hlr.
    unfold get_runtime, bind, lift, ret. rewrite Hv, Hpwd. cbn [Framework].
    assert (Hshape : exists ip,
              lr = [ ("type", PStr "local");
                     ("host", PStr (gethostname env));
                     ("path", PStr (getcwd env));
                     ("ip", PStr ip);
                     ("name", PStr (gethostname env));
                     ("runtime", PStr "local") ]).
    { unfold get_local_runtime in Hlr.
      destruct (match gethostbyname env (gethostname env) with
                | Ok ip => Ok ip
                | Raise _ => gethostbyname env "localhost"
                end) as [ip | e]; cbn [rbind] in Hlr; [| discriminate].
      injection Hlr as <-. now exists ip. }
    destruct Hshape as [ip ->].
    destruct (contains "Darwin" (uname_system env));
      unfold bind, lift, ret; cbn [log emit fst snd]; rewrite Hlr;
      do 3 eexists; (split; [reflexivity |]);
      repeat split; reflexivity.
Qed.

Lemma get_runtime_outcomes_witness :
  exists fr rt w',
    get_runtime Fixtures.env_up initial_world = (Ok (fr, rt), w') /\
    dict_get rt "path" = Some (PStr "/data") /\
    dict_get rt "type" = Some (PStr "local").
Proof.
  destruct (proj2 (proj2 (get_runtime_outcomes Fixtures.env_up initial_world))
              "0.1.12" "/data" _ eq_refl eq_refl eq_refl)
    as (fr & rt & w' & Hrun & _ & Hpath & _ & Htype & _).
  exists fr, rt, w'. auto.
Defined.

(** *** [__init__] *)

Lemma truthy_str (a : string) : a <> "" -> truthy (PStr a) = true.
Proof.
  intros H. cbn. apply negb_true_iff. now apply String.eqb_neq.
Qed.

(** X16. [__init__] checks [app_id] first and [owner] next, before it
    does anything else: a value that is empty or not a string is
    refused with a [NameError] that names it, no identifier is drawn
    and nothing is sent. *)
Theorem init_checks_identity_first (env : environment) (l : Loader)
  (app_id owner : pyval) (description : string) (w : world) :
  (truthy app_id && is_str app_id = false ->
   __init__ env l app_id owner description w
   = (Raise (Exn NameError "No app_id is passed or invalid app_id." None),
      w)) /\
  (truthy app_id && is_str app_id = true ->
   truthy owner && is_str owner = false ->
   __init__ env l app_id owner description w
   = (Raise (Exn NameError "No owner is passed or invalid owner." None), w)).
Proof.
  unfold __init__. split.
  - intros H. apply andb_false_iff in H as [-> | ->]; cbn;
      rewrite ?orb_true_r; reflexivity.
  - intros H1 H2. apply andb_prop in H1 as [-> ->]. cbn.
    apply andb_false_iff in H2 as [-> | ->]; cbn;
      rewrite ?orb_true_r; reflexivity.
Qed.

Lemma init_checks_identity_first_witness :
  __init__ Fixtures.env_up Fixtures.csv_loader (PStr "") PNone ""
           initial_world
  = (Raise (Exn NameError "No app_id is passed or invalid app_id." None),
     initial_world) /\
  __init__ Fixtures.env_up Fixtures.csv_loader (PStr "app") (PInt 7) ""
           initial_world
  = (Raise (Exn NameError "No owner is passed or invalid owner." None),
     initial_world).
Proof.
  split.
  - apply (proj1 (init_checks_identity_first Fixtures.env_up
                    Fixtures.csv_loader (PStr "") PNone "" initial_world)).
    reflexivity.
  - apply (proj2 (init_checks_identity_first Fixtures.env_up
                    Fixtures.csv_loader (PStr "app") (PInt 7) ""
                    initial_world)); reflexivity.
Defined.

(** The state after [uuid.uuid4()]. *)
Lemma fresh_uuid_run (env : environment) (w : world) :
  exists w1,
    fresh_uuid env w = (Ok (uuid4 env (uuids_drawn w)), w1) /\
    posts (events w1) = posts (events w) /\
    uuids_drawn w1 = S (uuids_drawn w) /\
    discover_sent w1 = discover_sent w /\
    loader_sent w1 = loader_sent w.
Proof. eexists. split; [reflexivity |]. cbn. auto. Qed.

(** [_send_discover] raises on line 117, before its [try] statement:
    the app has no attribute [model_dump]. *)
Lemma send_discover_raises (env : environment) (self : DaxaSafeLoader)
  (w : world) :
  _send_discover env self w
  = (Raise (Exn AttributeError "'App' object has no attribute 'model_dump'"
              None), w).
Proof. reflexivity. Qed.

(** X17. With a valid [app_id] and [owner], [__init__] fails in
    [get_source_size] whenever the location of the wrapped loader is
    neither a file nor a directory for [os.path]: it raises the
    [UnboundLocalError] after drawing the load identifier and before
    any request is sent. *)
Theorem init_needs_local_source (env : environment) (l : Loader)
  (a o description sp : string) (w : world) :
  a <> "" -> o <> "" ->
  location_of env l = Ok sp ->
  isfile (host env) sp = false ->
  isdir (host env) sp = false ->
  exists w',
    __init__ env l (PStr a) (PStr o) description w
    = (Raise (unbound_size env), w') /\
    posts (events w') = posts (events w) /\
    discover_sent w' = discover_sent w /\
    uuids_drawn w' = S (uuids_drawn w).
Proof.
  intros Ha Ho Hloc Hf Hd. unfold __init__.
  rewrite (truthy_str a Ha), (truthy_str o Ho). cbn [negb is_str orb].
  unfold bind at 1.
  destruct (fresh_uuid_run env w) as (w1 & -> & P1 & U1 & D1 & L1).
  unfold bind at 1.
  destruct (get_loader_full_path env l w1) as [r w2] eqn:E2.
  apply get_loader_full_path_effects in E2 as [-> (P2 & U2 & D2 & L2)].
  rewrite Hloc. unfold bind at 1, lift.
  rewrite (get_source_size_missing env sp Hf Hd).
  exists w2. repeat split; congruence.
Qed.

Lemma init_needs_local_source_witness :
  exists w',
    __init__ Fixtures.env_up Samples.s3_directory_loader
             (PStr "app") (PStr "me") "" initial_world
    = (Raise (unbound_size Fixtures.env_up), w') /\
    posts (events w') = [].
Proof.
  destruct (init_needs_local_source Fixtures.env_up
              Samples.s3_directory_loader "app" "me" "" "-" initial_world)
    as (w' & Hrun & Hposts & _).
  - discriminate.
  - discriminate.
  - reflexivity.
  - reflexivity.
  - reflexivity.
  - exists w'. auto.
Defined.

(** X18. No construction returns, and none sends a request or sets a
    class flag: [__init__] ends in an exception on every input.  With
    a valid [app_id] and [owner], a location that [get_source_size]
    can measure and a runtime that [get_runtime] can describe, the
    exception is the [AttributeError] of [_send_discover], line 117,
    raised after one load identifier was drawn. *)
Theorem init_never_returns (env : environment) (l : Loader)
  (app_id owner : pyval) (description : string) (w : world) :
  (exists e w',
     __init__ env l app_id owner description w = (Raise e, w') /\
     posts (events w') = posts (events w) /\
     discover_sent w' = discover_sent w /\
     loader_sent w' = loader_sent w) /\
  (forall a o sp n fr rt,
     app_id = PStr a -> owner = PStr o -> a <> "" -> o <> "" ->
     location_of env l = Ok sp ->
     get_source_size env (Some sp) = Ok n ->
     runtime_of env = Ok (fr, rt) ->
     exists w',
       __init__ env l app_id owner description w
       = (Raise (Exn AttributeError
                   "'App' object has no attribute 'model_dump'" None), w') /\
       uuids_drawn w' = S (uuids_drawn w)).
Proof.
  split.
  - unfold __init__.
    destruct (negb (truthy app_id) || negb (is_str app_id));
      [do 2 eexists; split; [reflexivity | auto] |].
    destruct (negb (truthy owner) || negb (is_str owner));
      [do 2 eexists; split; [reflexivity | auto] |].
    unfold bind at 1.
    destruct (fresh_uuid_run env w) as (w1 & -> & P1 & U1 & D1 & L1).
    unfold bind at 1.
    destruct (get_loader_full_path env l w1) as [[sp | e] w2] eqn:E2;
      apply get_loader_full_path_effects in E2 as [_ (P2 & U2 & D2 & L2)];
      [| do 2 eexists; split; [reflexivity | repeat split; congruence]].
    unfold bind at 1, lift.
    destruct (get_source_size env (Some sp)) as [n | e];
      [| do 2 eexists; split; [reflexivity | repeat split; congruence]].
    unfold bind at 1, _get_app_details. unfold bind at 1.
    destruct (get_runtime env w2) as [[[fr rt] | e] w3] eqn:E4;
      apply get_runtime_effects in E4 as [_ (P3 & U3 & D3 & L3)];
      [| do 2 eexists; split; [reflexivity | repeat split; congruence]].
    unfold ret at 1. unfold bind. rewrite send_discover_raises.
    do 2 eexists. split; [reflexivity | repeat split; congruence].
  - intros a o sp n fr rt -> -> Ha Ho Hloc Hsize Hrt. unfold __init__.
    rewrite (truthy_str a Ha), (truthy_str o Ho). cbn [negb is_str orb].
    unfold bind at 1.
    destruct (fresh_uuid_run env w) as (w1 & -> & P1 & U1 & D1 & L1).
    unfold bind at 1.
    destruct (get_loader_full_path env l w1) as [r w2] eqn:E2.
    apply get_loader_full_path_effects in E2 as [-> (P2 & U2 & D2 & L2)].
    rewrite Hloc. unfold bind at 1, lift. rewrite Hsize.
    unfold bind at 1, _get_app_details. unfold bind at 1.
    destruct (get_runtime env w2) as [r w3] eqn:E4.
    apply get_runtime_effects in E4 as [-> (P3 & U3 & D3 & L3)].
    rewrite Hrt. unfold ret at 1. unfold bind. rewrite send_discover_raises.
    eexists. split; [reflexivity | congruence].
Qed.

Lemma init_never_returns_witness :
  exists w',
    __init__ Fixtures.env_up Samples.notes_loader (PStr "app") (PStr "me") ""
             initial_world
    = (Raise (Exn AttributeError
                "'App' object has no attribute 'model_dump'" None), w') /\
    uuids_drawn w' = 1.
Proof.
  exact (proj2 (init_never_returns Fixtures.env_up Samples.notes_loader
                  (PStr "app") (PStr "me") "" initial_world)
           "app" "me" "/data/lnk/../notes.md" 7 _ _ eq_refl eq_refl
           ltac:(discriminate) ltac:(discriminate)
           eq_refl eq_refl eq_refl).
Defined.

End MoreConstruction.
